(** * GA4GH server: read-alignment translation and frontend routing

    A shallow embedding of [ga4gh/datamodel/reads.py] and
    [ga4gh/frontend.py].  Python functions that can raise are functions into
    [outcome]; generators are run to exhaustion and give the list of yielded
    values together with the way the iteration ended.  The protocol classes,
    the datamodel mixin, pysam and the backend are outside the two modules:
    their data is modelled as records and their methods are parameters.
    Flask's dispatch and the error handler of the frontend are not modelled;
    the view functions are. *)

From stdpp Require Import base numbers list strings gmap.
From Stdlib Require Import DecimalString DecimalPos DecimalZ.

Open Scope string_scope.
Open Scope Z_scope.

(** * Python values, exceptions and results *)

(** The exceptions the modelled code can raise.  [Exception name] stands for
    any exception raised by code outside the two modules (the datamodel mixin,
    pysam, the backend). *)
Inductive exn : Type :=
  | IndexError
  | TypeError
  | PathNotFoundException
  | UnsupportedMediaType
  | Exception (name : string).

(** The result of a call: a returned value or a raised exception. *)
Inductive outcome (A : Type) : Type :=
  | Returned (a : A)
  | Raised (e : exn).
Arguments Returned {A} a.
Arguments Raised {A} e.

Global Instance outcome_ret : MRet outcome := fun A a => Returned a.
Global Instance outcome_bind : MBind outcome := fun A B k m =>
  match m with
  | Returned a => k a
  | Raised e => Raised e
  end.

(** The dynamically typed values that reach the modelled functions: [None],
    integers and (unicode) strings. *)
Inductive pyobj : Type :=
  | PyNone
  | PyInt (n : Z)
  | PyStr (s : string).

Global Instance pyobj_eq_dec : EqDecision pyobj.
Proof. solve_decision. Defined.

(** [a == b] on these values is structural equality. *)
Definition py_eq (a b : pyobj) : bool := bool_decide (a = b).

(** [str(v)]. *)
Definition py_str (v : pyobj) : string :=
  match v with
  | PyNone => "None"
  | PyInt n => NilZero.string_of_int (Z.to_int n)
  | PyStr s => s
  end.

(** [l[i]] for a list [l] and an integer [i]: a negative index counts from the
    end, and an index outside [-len(l), len(l))] raises [IndexError]. *)
Definition list_getitem {A : Type} (l : list A) (i : Z) : outcome A :=
  let n := Z.of_nat (length l) in
  let j := if i <? 0 then i + n else i in
  if (j <? 0) || (n <=? j) then Raised IndexError
  else match l !! Z.to_nat j with
       | Some x => Returned x
       | None => Raised IndexError
       end.

(** * [ga4gh.protocol] *)

Module protocol.

(** Modelled from the spec: the constants of [protocol.CigarOperation]
    (ga4gh/protocol.py is not among the sources): the nine CIGAR kinds
    alignment-match, insert, delete, skip, soft-clip, hard-clip, pad,
    sequence-match and sequence-mismatch, each the string of its own name. *)
Module CigarOperation.
Definition ALIGNMENT_MATCH : pyobj := PyStr "ALIGNMENT_MATCH".
Definition INSERT : pyobj := PyStr "INSERT".
Definition DELETE : pyobj := PyStr "DELETE".
Definition SKIP : pyobj := PyStr "SKIP".
Definition CLIP_SOFT : pyobj := PyStr "CLIP_SOFT".
Definition CLIP_HARD : pyobj := PyStr "CLIP_HARD".
Definition PAD : pyobj := PyStr "PAD".
Definition SEQUENCE_MATCH : pyobj := PyStr "SEQUENCE_MATCH".
Definition SEQUENCE_MISMATCH : pyobj := PyStr "SEQUENCE_MISMATCH".
End CigarOperation.

(** Modelled from the spec: [protocol.Strand], of which the mapper only
    ever uses the positive strand. *)
Module Strand.
Inductive t : Type := NEG_STRAND | POS_STRAND.
End Strand.

(** Modelled from the spec: the protocol objects the mapper fills in
    (section 3 of the specification), with the fields it assigns. *)
Module Position.
Record t : Type := mk {
  referenceName : string;
  position : Z;
  strand : Strand.t }.
End Position.

Module CigarUnit.
Record t : Type := mk {
  operation : pyobj;
  operationLength : Z;
  referenceSequence : option string }.
End CigarUnit.

Module LinearAlignment.
Record t : Type := mk {
  mappingQuality : Z;
  position : Position.t;
  cigar : list CigarUnit.t }.
End LinearAlignment.

Module ReadAlignment.
Record t : Type := mk {
  alignedQuality : list Z;
  alignedSequence : option string;
  alignment : LinearAlignment.t;
  duplicateFragment : bool;
  failedVendorQualityChecks : bool;
  fragmentLength : Z;
  fragmentName : string;
  id : string;
  info : gmap string (list string);
  nextMatePosition : option Position.t;
  numberReads : option Z;
  readNumber : option Z;
  properPlacement : bool;
  readGroupId : string;
  secondaryAlignment : bool;
  supplementaryAlignment : bool }.
End ReadAlignment.

End protocol.

(** * [ga4gh.datamodel.reads] *)

Module SamCigar.
Import protocol.

Definition cigarStrings : list pyobj :=
  [ CigarOperation.ALIGNMENT_MATCH;
    CigarOperation.INSERT;
    CigarOperation.DELETE;
    CigarOperation.SKIP;
    CigarOperation.CLIP_SOFT;
    CigarOperation.CLIP_HARD;
    CigarOperation.PAD;
    CigarOperation.SEQUENCE_MATCH;
    CigarOperation.SEQUENCE_MISMATCH ].

(** The loop of [ga2int] over [enumerate(cls.cigarStrings)], from index
    [i] on: it returns at the first match, and a loop that runs out falls off
    the end of the function, which returns [None]. *)
Fixpoint ga2int_loop (value : pyobj) (i : Z) (rest : list pyobj) : pyobj :=
  match rest with
  | [] => PyNone
  | cigarString :: rest' =>
      if py_eq value cigarString then PyInt i
      else ga2int_loop value (i + 1) rest'
  end.

Definition ga2int (value : pyobj) : outcome pyobj :=
  Returned (ga2int_loop value 0 cigarStrings).

Definition int2ga (value : Z) : outcome pyobj :=
  list_getitem cigarStrings value.

End SamCigar.

Module SamFlags.

Definition NUMBER_READS : Z := 0x1.
Definition PROPER_PLACEMENT : Z := 0x2.
Definition READ_NUMBER_ONE : Z := 0x40.
Definition READ_NUMBER_TWO : Z := 0x80.
Definition SECONDARY_ALIGNMENT : Z := 0x100.
Definition FAILED_VENDOR_QUALITY_CHECKS : Z := 0x200.
Definition DUPLICATE_FRAGMENT : Z := 0x400.
Definition SUPPLEMENTARY_ALIGNMENT : Z := 0x800.

(** [flagAttr & flag == flag]: [&] binds tighter than [==]. *)
Definition isFlagSet (flagAttr flag : Z) : bool :=
  Z.land flagAttr flag =? flag.

(** [flagAttr |= flag] rebinds the parameter [flagAttr], a local name (an
    integer is immutable); the body ends there, so the call returns
    [None]. *)
Definition setFlag (flagAttr flag : Z) : outcome pyobj :=
  let flagAttr := Z.lor flagAttr flag in
  Returned PyNone.

(** [isFlagSet] applied to an arbitrary value: [&] between a value that is
    not an integer and an integer raises [TypeError]. *)
Definition isFlagSet_dyn (flagAttr : pyobj) (flag : Z) : outcome bool :=
  match flagAttr with
  | PyInt n => Returned (isFlagSet n flag)
  | _ => Raised TypeError
  end.

End SamFlags.


(** * [pysam]: the records and the file handle the mapper reads *)

Module pysam.

(** A raw alignment record ([pysam.AlignedSegment]), with the attributes
    [convertReadAlignment] reads.  [query_qualities] and [query_sequence] are
    [None] when the file stores none; [cigar] and [tags] are lists of pairs. *)
Record AlignedSegment : Type := mkAlignedSegment {
  query_qualities : option (list Z);
  query_sequence : option string;
  mapping_quality : Z;
  reference_id : Z;
  reference_start : Z;
  cigar : list (Z * Z);
  flag : Z;
  template_length : Z;
  query_name : string;
  tags : list (string * pyobj);
  next_reference_id : Z;
  next_reference_start : Z }.

(** An open file ([pysam.AlignmentFile]): the name of a reference index,
    which pysam refuses for an index outside the file's table, and the records
    of a region, here the finite sequence the iterator yields. *)
Record AlignmentFile : Type := mkAlignmentFile {
  getrname : Z -> outcome string;
  fetch : string -> option Z -> option Z -> outcome (list AlignedSegment) }.

End pysam.

(** The methods [HtslibReadGroup] inherits from [datamodel.PysamDatamodelMixin]
    (ga4gh/datamodel/__init__.py is not among the sources): each either
    returns or raises. *)
Class PysamDatamodelMixin : Type := {
  sanitizeGetRName : Z -> outcome unit;
  sanitizeAlignmentFileFetch :
    string -> option Z -> option Z -> outcome (string * option Z * option Z) }.

Module HtslibReadGroup.
Import protocol.

(** The attributes of an instance; [_samFile] is the file opened by
    [__init__]. *)
Record t : Type := mk {
  _id : string;
  _samFilePath : string;
  _samFile : pysam.AlignmentFile }.

Definition getId (self : t) : string := _id self.

Definition getSamFilePath (self : t) : string := _samFilePath self.

(** [list(x)]: [None] is not iterable. *)
Definition py_list {A : Type} (x : option (list A)) : outcome (list A) :=
  match x with
  | Some l => Returned l
  | None => Raised TypeError
  end.

(** The loop over [read.cigar], appending one unit per pair to the list
    built so far. *)
Fixpoint cigar_loop (cigar : list CigarUnit.t) (rest : list (Z * Z))
    : outcome (list CigarUnit.t) :=
  match rest with
  | [] => Returned cigar
  | (operation, length) :: rest' =>
      op ← SamCigar.int2ga operation;
      let gaCigarUnit :=
        {| CigarUnit.operation := op;
           CigarUnit.operationLength := length;
           CigarUnit.referenceSequence := None |} in
      cigar_loop (cigar ++ [gaCigarUnit]) rest'
  end.

(** [{key: [str(value)] for key, value in read.tags}]: a later pair
    overwrites an earlier one with the same key. *)
Definition info_of_tags (tags : list (string * pyobj))
    : gmap string (list string) :=
  foldl (fun d kv => <[kv.1 := [py_str kv.2]]> d) ∅ tags.

(** ["{}:{}".format(a, b)]. *)
Definition format_pair (a b : string) : string := (a ++ ":" ++ b)%string.

(** The [if read.next_reference_id != -1] block. *)
Definition convert_nextMatePosition `{PysamDatamodelMixin}
    (self : t) (read : pysam.AlignedSegment) : outcome (option Position.t) :=
  if negb (pysam.next_reference_id read =? -1) then
    _ ← sanitizeGetRName (pysam.next_reference_id read);
    referenceName ← pysam.getrname (_samFile self) (pysam.next_reference_id read);
    Returned (Some {| Position.referenceName := referenceName;
                      Position.position := pysam.next_reference_start read;
                      Position.strand := Strand.POS_STRAND |})
  else Returned None.

(** The [if SamFlags.isFlagSet(read.flag, SamFlags.NUMBER_READS)] block:
    the pair [(numberReads, readNumber)], both [None] to start with. *)
Definition convert_numberReads (flag : Z) : option Z * option Z :=
  if SamFlags.isFlagSet flag SamFlags.NUMBER_READS then
    (Some 2,
     if SamFlags.isFlagSet flag SamFlags.READ_NUMBER_ONE then Some 0
     else if SamFlags.isFlagSet flag SamFlags.READ_NUMBER_TWO then Some 1
     else None)
  else (None, None).

Definition convertReadAlignment `{PysamDatamodelMixin}
    (self : t) (read : pysam.AlignedSegment) : outcome ReadAlignment.t :=
  alignedQuality ← py_list (pysam.query_qualities read);
  _ ← sanitizeGetRName (pysam.reference_id read);
  referenceName ← pysam.getrname (_samFile self) (pysam.reference_id read);
  let position :=
    {| Position.referenceName := referenceName;
       Position.position := pysam.reference_start read;
       Position.strand := Strand.POS_STRAND |} in
  cigar ← cigar_loop [] (pysam.cigar read);
  nextMatePosition ← convert_nextMatePosition self read;
  let '(numberReads, readNumber) := convert_numberReads (pysam.flag read) in
  Returned
    {| ReadAlignment.alignedQuality := alignedQuality;
       ReadAlignment.alignedSequence := pysam.query_sequence read;
       ReadAlignment.alignment :=
         {| LinearAlignment.mappingQuality := pysam.mapping_quality read;
            LinearAlignment.position := position;
            LinearAlignment.cigar := cigar |};
       ReadAlignment.duplicateFragment :=
         SamFlags.isFlagSet (pysam.flag read) SamFlags.DUPLICATE_FRAGMENT;
       ReadAlignment.failedVendorQualityChecks :=
         SamFlags.isFlagSet (pysam.flag read)
           SamFlags.FAILED_VENDOR_QUALITY_CHECKS;
       ReadAlignment.fragmentLength := pysam.template_length read;
       ReadAlignment.fragmentName := pysam.query_name read;
       ReadAlignment.id := format_pair (_id self) (pysam.query_name read);
       ReadAlignment.info := info_of_tags (pysam.tags read);
       ReadAlignment.nextMatePosition := nextMatePosition;
       ReadAlignment.numberReads := numberReads;
       ReadAlignment.readNumber := readNumber;
       ReadAlignment.properPlacement :=
         SamFlags.isFlagSet (pysam.flag read) SamFlags.PROPER_PLACEMENT;
       ReadAlignment.readGroupId := _id self;
       ReadAlignment.secondaryAlignment :=
         SamFlags.isFlagSet (pysam.flag read) SamFlags.SECONDARY_ALIGNMENT;
       ReadAlignment.supplementaryAlignment :=
         SamFlags.isFlagSet (pysam.flag read)
           SamFlags.SUPPLEMENTARY_ALIGNMENT |}.

(** A generator run to exhaustion: the values it yielded, and [None] when
    it finished or [Some e] when the exception [e] ended it. *)
Definition generated (A : Type) : Type := list A * option exn.

(** The loop [for readAlignment in readAlignments: yield
    self.convertReadAlignment(readAlignment)]. *)
Fixpoint yield_loop `{PysamDatamodelMixin}
    (self : t) (readAlignments : list pysam.AlignedSegment)
    : generated ReadAlignment.t :=
  match readAlignments with
  | [] => ([], None)
  | readAlignment :: rest =>
      match convertReadAlignment self readAlignment with
      | Raised e => ([], Some e)
      | Returned alignment =>
          let '(yielded, ending) := yield_loop self rest in
          (alignment :: yielded, ending)
      end
  end.

(** The statements of [getReadAlignments] before its loop: the sequence of
    records that [fetch] gives for the sanitized query. *)
Definition fetched `{PysamDatamodelMixin}
    (self : t) (referenceId start end_ : option Z)
    : outcome (list pysam.AlignedSegment) :=
  referenceName ←
    match referenceId with
    | Some referenceId =>
        _ ← sanitizeGetRName referenceId;
        pysam.getrname (_samFile self) referenceId
    | None => Returned ""
    end;
  '(referenceName, start, end_) ←
    sanitizeAlignmentFileFetch referenceName start end_;
  pysam.fetch (_samFile self) referenceName start end_.

Definition getReadAlignments `{PysamDatamodelMixin}
    (self : t) (referenceId start end_ : option Z)
    : generated ReadAlignment.t :=
  match fetched self referenceId start end_ with
  | Raised e => ([], Some e)
  | Returned readAlignments => yield_loop self readAlignments
  end.

End HtslibReadGroup.


(** * [flask]: requests and responses *)

Module flask.

Record Request : Type := mkRequest {
  method : string;
  mimetype : string;
  get_data : string }.

(** [flask.Response(data, status=..., mimetype=...)]; the status is 200
    unless given. *)
Record Response : Type := mkResponse {
  data : string;
  status : Z;
  response_mimetype : string;
  headers : list (string * string) }.

End flask.

(** * [ga4gh.frontend] *)

Module Backend.

(** [app.backend]: the object whose search methods take the request body
    and give the response body. *)
Record t : Type := mk {
  searchVariantSets : string -> outcome string;
  searchVariants : string -> outcome string;
  searchExpressionAnalysis : string -> outcome string }.

(** The search methods of the backend that the frontend names. *)
Definition methods : list (t -> string -> outcome string) :=
  [searchVariantSets; searchVariants; searchExpressionAnalysis].

End Backend.

Module frontend.

Definition handleHTTPPost (request : flask.Request)
    (endpoint : string -> outcome string) : outcome flask.Response :=
  let mimetype := "application/json" in
  if negb (String.eqb (flask.mimetype request) mimetype) then
    Raised UnsupportedMediaType
  else
    responseStr ← endpoint (flask.get_data request);
    Returned {| flask.data := responseStr;
                flask.status := 200;
                flask.response_mimetype := mimetype;
                flask.headers := [] |}.

Definition handleHTTPOptions : outcome flask.Response :=
  Returned {| flask.data := "";
              flask.status := 200;
              flask.response_mimetype := "application/json";
              flask.headers :=
                [("Access-Control-Request-Methods", "GET,POST,OPTIONS")] |}.

(** A view function reads the globals [app.backend] and [flask.request]. *)
Definition view : Type := Backend.t -> flask.Request -> outcome flask.Response.

Definition index : view :=
  fun backend request => Raised PathNotFoundException.

Definition getReference (id : string) : view :=
  fun backend request => Raised PathNotFoundException.

Definition getReferenceBases (id : string) : view :=
  fun backend request => Raised PathNotFoundException.

Definition getReferenceSet (id : string) : view :=
  fun backend request => Raised PathNotFoundException.

Definition searchCallSets : view :=
  fun backend request => Raised PathNotFoundException.

Definition searchReadGroupSets : view :=
  fun backend request => Raised PathNotFoundException.

Definition searchReads : view :=
  fun backend request => Raised PathNotFoundException.

Definition searchReferenceSets : view :=
  fun backend request => Raised PathNotFoundException.

Definition searchReferences : view :=
  fun backend request => Raised PathNotFoundException.

Definition searchVariantSets : view :=
  fun backend request =>
    if String.eqb (flask.method request) "POST" then
      handleHTTPPost request (Backend.searchVariantSets backend)
    else handleHTTPOptions.

Definition searchVariants : view :=
  fun backend request =>
    if String.eqb (flask.method request) "POST" then
      handleHTTPPost request (Backend.searchVariants backend)
    else handleHTTPOptions.

Definition searchExpressionAnalysis : view :=
  fun backend request =>
    if String.eqb (flask.method request) "POST" then
      handleHTTPPost request (Backend.searchExpressionAnalysis backend)
    else handleHTTPOptions.

(** One [@app.route(rule, methods=...)] registration: the URL rule, the
    methods as written (['GET'] when the decorator names none), the name of the
    decorated function and the function itself, applied to the value of [<id>]
    (unused by a rule without one). *)
Record Rule : Type := mkRule {
  rule : string;
  methods : list string;
  endpoint : string;
  view_func : string -> view }.

(** The routes of the module, in the order they are registered. *)
Definition url_map : list Rule :=
  [ mkRule "/" ["GET"] "index" (fun _ => index);
    mkRule "/references/<id>" ["GET"] "getReference" getReference;
    mkRule "/references/<id>/bases" ["GET"] "getReferenceBases"
      getReferenceBases;
    mkRule "/referencesets/<id>" ["GET"] "getReferenceSet" getReferenceSet;
    mkRule "/callsets/search" ["POST"] "searchCallSets"
      (fun _ => searchCallSets);
    mkRule "/readgroupsets/search" ["POST"] "searchReadGroupSets"
      (fun _ => searchReadGroupSets);
    mkRule "/reads/search" ["POST"] "searchReads" (fun _ => searchReads);
    mkRule "/referencesets/search" ["POST"] "searchReferenceSets"
      (fun _ => searchReferenceSets);
    mkRule "/references/search" ["POST"] "searchReferences"
      (fun _ => searchReferences);
    mkRule "/variantsets/search" ["POST"; "OPTIONS"] "searchVariantSets"
      (fun _ => searchVariantSets);
    mkRule "/variants/search" ["POST"; "OPTIONS"] "searchVariants"
      (fun _ => searchVariants);
    mkRule "/expressionanalysis/search" ["POST"; "OPTIONS"]
      "searchExpressionAnalysis" (fun _ => searchExpressionAnalysis) ].

(** A route that only raises the path-not-found error, whatever the
    request. *)
Definition raises_not_implemented (r : Rule) : Prop :=
  forall id backend request,
    view_func r id backend request = Raised PathNotFoundException.

(** A route that passes a POST request through to one search method of the
    backend. *)
Definition delegates_to_backend (r : Rule) : Prop :=
  exists m, m ∈ Backend.methods /\
    forall id backend request,
      flask.method request = "POST" ->
      view_func r id backend request = handleHTTPPost request (m backend).

(** The names under which the three search views that call the backend are
    registered. *)
Definition delegating_endpoints : list string :=
  ["searchVariantSets"; "searchVariants"; "searchExpressionAnalysis"].

(** The routes among [routes] that are registered under one of [names]. *)
Definition routes_named (names : list string) (routes : list Rule)
    : list Rule :=
  filter (fun r => endpoint r ∈ names) routes.

Definition routes_not_named (names : list string) (routes : list Rule)
    : list Rule :=
  filter (fun r => endpoint r ∉ names) routes.

(** Exactly two routes of [routes] delegate to the backend and every other
    one raises the path-not-found error. *)
Definition two_delegate_rest_raise (routes : list Rule) : Prop :=
  exists r1 r2,
    r1 ∈ routes /\ r2 ∈ routes /\ endpoint r1 <> endpoint r2 /\
    delegates_to_backend r1 /\ delegates_to_backend r2 /\
    Forall (fun r => endpoint r <> endpoint r1 -> endpoint r <> endpoint r2 ->
                     raises_not_implemented r) routes.

End frontend.


(** * Concrete files, records and requests *)

Module Examples.
Import protocol.

(** A mixin whose checks accept every reference index and leave the query
    as it is. *)
Definition mixin : PysamDatamodelMixin :=
  {| sanitizeGetRName := fun _ => Returned tt;
     sanitizeAlignmentFileFetch := fun name start end_ =>
       Returned (name, start, end_) |}.

(** A paired first read with flag 0x43, whose mate is unplaced. *)
Definition read_first : pysam.AlignedSegment :=
  {| pysam.query_qualities := Some [30; 31; 32];
     pysam.query_sequence := Some "ACT";
     pysam.mapping_quality := 60;
     pysam.reference_id := 0;
     pysam.reference_start := 99;
     pysam.cigar := [(0, 10); (1, 2); (0, 5)];
     pysam.flag := 0x43;
     pysam.template_length := 17;
     pysam.query_name := "r1";
     pysam.tags := [("NM", PyInt 2); ("MD", PyStr "10")];
     pysam.next_reference_id := -1;
     pysam.next_reference_start := -1 |}.

(** A read with the multi-segment, first-in-pair and second-in-pair bits
    all set (flag 0xC1), whose mate lies on reference 1. *)
Definition read_both : pysam.AlignedSegment :=
  {| pysam.query_qualities := Some [20];
     pysam.query_sequence := Some "G";
     pysam.mapping_quality := 37;
     pysam.reference_id := 0;
     pysam.reference_start := 7;
     pysam.cigar := [(0, 1)];
     pysam.flag := 0xC1;
     pysam.template_length := 0;
     pysam.query_name := "r2";
     pysam.tags := [];
     pysam.next_reference_id := 1;
     pysam.next_reference_start := 250 |}.

(** A read whose CIGAR holds the operation code 9. *)
Definition read_code9 : pysam.AlignedSegment :=
  {| pysam.query_qualities := Some [20];
     pysam.query_sequence := Some "G";
     pysam.mapping_quality := 37;
     pysam.reference_id := 0;
     pysam.reference_start := 7;
     pysam.cigar := [(9, 1)];
     pysam.flag := 0;
     pysam.template_length := 0;
     pysam.query_name := "r3";
     pysam.tags := [];
     pysam.next_reference_id := -1;
     pysam.next_reference_start := -1 |}.

(** A file with the references chr1 and chr2 that yields [records] for
    every region. *)
Definition samFile (records : list pysam.AlignedSegment)
    : pysam.AlignmentFile :=
  {| pysam.getrname := fun tid =>
       if tid =? 0 then Returned "chr1"
       else if tid =? 1 then Returned "chr2"
       else Raised (Exception "ValueError");
     pysam.fetch := fun _ _ _ => Returned records |}.

Definition readGroup (records : list pysam.AlignedSegment)
    : HtslibReadGroup.t :=
  {| HtslibReadGroup._id := "set:file";
     HtslibReadGroup._samFilePath := "file.bam";
     HtslibReadGroup._samFile := samFile records |}.

Definition cigar_unit (operation : pyobj) (length : Z) : CigarUnit.t :=
  {| CigarUnit.operation := operation;
     CigarUnit.operationLength := length;
     CigarUnit.referenceSequence := None |}.

(** What [read_first] is mapped to. *)
Definition alignment_first : ReadAlignment.t :=
  {| ReadAlignment.alignedQuality := [30; 31; 32];
     ReadAlignment.alignedSequence := Some "ACT";
     ReadAlignment.alignment :=
       {| LinearAlignment.mappingQuality := 60;
          LinearAlignment.position := Position.mk "chr1" 99 Strand.POS_STRAND;
          LinearAlignment.cigar :=
            [ cigar_unit CigarOperation.ALIGNMENT_MATCH 10;
              cigar_unit CigarOperation.INSERT 2;
              cigar_unit CigarOperation.ALIGNMENT_MATCH 5 ] |};
     ReadAlignment.duplicateFragment := false;
     ReadAlignment.failedVendorQualityChecks := false;
     ReadAlignment.fragmentLength := 17;
     ReadAlignment.fragmentName := "r1";
     ReadAlignment.id := "set:file:r1";
     ReadAlignment.info := {[ "NM" := ["2"]; "MD" := ["10"] ]};
     ReadAlignment.nextMatePosition := None;
     ReadAlignment.numberReads := Some 2;
     ReadAlignment.readNumber := Some 0;
     ReadAlignment.properPlacement := true;
     ReadAlignment.readGroupId := "set:file";
     ReadAlignment.secondaryAlignment := false;
     ReadAlignment.supplementaryAlignment := false |}.

(** What [read_both] is mapped to. *)
Definition alignment_both : ReadAlignment.t :=
  {| ReadAlignment.alignedQuality := [20];
     ReadAlignment.alignedSequence := Some "G";
     ReadAlignment.alignment :=
       {| LinearAlignment.mappingQuality := 37;
          LinearAlignment.position := Position.mk "chr1" 7 Strand.POS_STRAND;
          LinearAlignment.cigar :=
            [ cigar_unit CigarOperation.ALIGNMENT_MATCH 1 ] |};
     ReadAlignment.duplicateFragment := false;
     ReadAlignment.failedVendorQualityChecks := false;
     ReadAlignment.fragmentLength := 0;
     ReadAlignment.fragmentName := "r2";
     ReadAlignment.id := "set:file:r2";
     ReadAlignment.info := ∅;
     ReadAlignment.nextMatePosition :=
       Some (Position.mk "chr2" 250 Strand.POS_STRAND);
     ReadAlignment.numberReads := Some 2;
     ReadAlignment.readNumber := Some 0;
     ReadAlignment.properPlacement := false;
     ReadAlignment.readGroupId := "set:file";
     ReadAlignment.secondaryAlignment := false;
     ReadAlignment.supplementaryAlignment := false |}.

(** A backend whose searches echo the request body. *)
Definition echo_backend : Backend.t :=
  {| Backend.searchVariantSets := fun body => Returned body;
     Backend.searchVariants := fun body => Returned body;
     Backend.searchExpressionAnalysis := fun body => Returned body |}.

(** A POST request that is not JSON. *)
Definition text_post : flask.Request :=
  {| flask.method := "POST";
     flask.mimetype := "text/plain";
     flask.get_data := "hello" |}.

End Examples.

(** * Read groups and read group sets *)

(** [range(n)]: the integers from 0 up to [n - 1], none when [n <= 0]. *)
Definition py_range (n : Z) : list Z := Z.of_nat <$> seq 0 (Z.to_nat n).

Module protocol_readgroups.

(** The fields of [protocol.ReadGroup] that [toProtocolElement] assigns;
    the fields it sets to [None] hold no other value here. *)
Module ReadGroup.
Record t : Type := mk {
  id : string;
  created : Z;
  updated : Z;
  datasetId : option pyobj;
  description : option pyobj;
  experiment : option pyobj;
  info : gmap string (list string);
  name : string;
  predictedInsertSize : option pyobj;
  programs : list pyobj;
  referenceSetId : option pyobj;
  sampleId : option pyobj }.
End ReadGroup.

(** The fields of [protocol.ReadGroupSet] that [toProtocolElement]
    assigns. *)
Module ReadGroupSet.
Record t : Type := mk {
  id : string;
  readGroups : list ReadGroup.t;
  name : option pyobj;
  datasetId : option pyobj }.
End ReadGroupSet.

(** The linear alignment of a simulated read: [_createReadAlignment]
    assigns its position only. *)
Module SimulatedLinearAlignment.
Record t : Type := mk {
  position : protocol.Position.t }.
End SimulatedLinearAlignment.

(** The read alignment [_createReadAlignment] fills in. *)
Module SimulatedReadAlignment.
Record t : Type := mk {
  alignedQuality : list Z;
  alignedSequence : string;
  alignment : SimulatedLinearAlignment.t;
  duplicateFragment : bool;
  failedVendorQualityChecks : bool;
  fragmentLength : Z;
  fragmentName : string;
  id : string;
  info : gmap string (list string);
  nextMatePosition : option protocol.Position.t;
  numberReads : option Z;
  readNumber : option Z;
  properPlacement : bool;
  readGroupId : string;
  secondaryAlignment : bool;
  supplementaryAlignment : bool }.
End SimulatedReadAlignment.

End protocol_readgroups.

Module AbstractReadGroup.
Import protocol_readgroups.

Record t : Type := mk {
  _id : string;
  _creationTime : Z;
  _updateTime : Z }.

(** [__init__]; [now] is what [protocol.convertDatetime(
    datetime.datetime.now())] gives at the time of the call. *)
Definition __init__ (now : Z) (id_ : string) : t :=
  {| _id := id_; _creationTime := now; _updateTime := now |}.

Definition getId (self : t) : string := _id self.

Definition toProtocolElement (self : t) : ReadGroup.t :=
  {| ReadGroup.id := _id self;
     ReadGroup.created := _creationTime self;
     ReadGroup.updated := _updateTime self;
     ReadGroup.datasetId := None;
     ReadGroup.description := None;
     ReadGroup.experiment := None;
     ReadGroup.info := ∅;
     ReadGroup.name := _id self;
     ReadGroup.predictedInsertSize := None;
     ReadGroup.programs := [];
     ReadGroup.referenceSetId := None;
     ReadGroup.sampleId := None |}.

End AbstractReadGroup.

(** What a read group set asks of its read groups: the methods of
    [AbstractReadGroup] they inherit. *)
Class ReadGroupClass (G : Type) : Type := {
  readGroup_getId : G -> string;
  readGroup_toProtocolElement : G -> protocol_readgroups.ReadGroup.t }.

Module SimulatedReadGroup.
Import protocol protocol_readgroups.

(** An instance: the attributes set by [AbstractReadGroup.__init__] and the
    number of alignments. *)
Record t : Type := mk {
  base : AbstractReadGroup.t;
  _numAlignments : Z }.

Definition __init__ (now : Z) (id_ : string) (numAlignments : Z) : t :=
  {| base := AbstractReadGroup.__init__ now id_;
     _numAlignments := numAlignments |}.

Definition getId (self : t) : string := AbstractReadGroup.getId (base self).

Definition toProtocolElement (self : t) : ReadGroup.t :=
  AbstractReadGroup.toProtocolElement (base self).

(** ["{}:simulated{}".format(a, i)]. *)
Definition format_simulated (a : string) (i : Z) : string :=
  (a ++ ":simulated" ++ py_str (PyInt i))%string.

Definition _createReadAlignment (self : t) (i : Z)
    : SimulatedReadAlignment.t :=
  let id_ := format_simulated (getId self) i in
  let gaPosition :=
    {| Position.position := 0;
       Position.referenceName := "whatevs";
       Position.strand := Strand.POS_STRAND |} in
  let gaLinearAlignment :=
    {| SimulatedLinearAlignment.position := gaPosition |} in
  {| SimulatedReadAlignment.alignedQuality := [1; 2; 3];
     SimulatedReadAlignment.alignedSequence := "ACT";
     SimulatedReadAlignment.alignment := gaLinearAlignment;
     SimulatedReadAlignment.duplicateFragment := false;
     SimulatedReadAlignment.failedVendorQualityChecks := false;
     SimulatedReadAlignment.fragmentLength := 3;
     SimulatedReadAlignment.fragmentName := id_;
     SimulatedReadAlignment.id := id_;
     SimulatedReadAlignment.info := ∅;
     SimulatedReadAlignment.nextMatePosition := None;
     SimulatedReadAlignment.numberReads := None;
     SimulatedReadAlignment.properPlacement := false;
     SimulatedReadAlignment.readGroupId := getId self;
     SimulatedReadAlignment.readNumber := None;
     SimulatedReadAlignment.secondaryAlignment := false;
     SimulatedReadAlignment.supplementaryAlignment := false |}.

(** The generator run to exhaustion; the query is not looked at. *)
Definition getReadAlignments (self : t) (referenceId start end_ : option Z)
    : HtslibReadGroup.generated SimulatedReadAlignment.t :=
  (_createReadAlignment self <$> py_range (_numAlignments self), None).

End SimulatedReadGroup.

Global Instance SimulatedReadGroup_class
    : ReadGroupClass SimulatedReadGroup.t :=
  {| readGroup_getId := SimulatedReadGroup.getId;
     readGroup_toProtocolElement := SimulatedReadGroup.toProtocolElement |}.

Module AbstractReadGroupSet.
Import protocol_readgroups.

Record t (G : Type) : Type := mk {
  _id : string;
  _readGroups : list G }.
Arguments mk {G} _ _.
Arguments _id {G} _.
Arguments _readGroups {G} _.

Definition __init__ {G : Type} (id_ : string) : t G :=
  {| _id := id_; _readGroups := [] |}.

Definition getId {G : Type} (self : t G) : string := _id self.

Definition getReadGroups {G : Type} (self : t G) : list G := _readGroups self.

Definition toProtocolElement `{ReadGroupClass G} (self : t G)
    : ReadGroupSet.t :=
  {| ReadGroupSet.id := _id self;
     ReadGroupSet.readGroups :=
       readGroup_toProtocolElement <$> _readGroups self;
     ReadGroupSet.name := None;
     ReadGroupSet.datasetId := None |}.

End AbstractReadGroupSet.

Module SimulatedReadGroupSet.

(** [__init__]: the set made by the superclass, with one simulated read
    group appended; [now] is the time its constructor reads. *)
Definition __init__ (now : Z) (id_ : string) (numAlignments : Z)
    : AbstractReadGroupSet.t SimulatedReadGroup.t :=
  let self := AbstractReadGroupSet.__init__ id_ in
  let readGroupId := (id_ ++ ":one")%string in
  let readGroup := SimulatedReadGroup.__init__ now readGroupId numAlignments in
  {| AbstractReadGroupSet._id := AbstractReadGroupSet._id self;
     AbstractReadGroupSet._readGroups :=
       AbstractReadGroupSet._readGroups self ++ [readGroup] |}.

End SimulatedReadGroupSet.

(** * [configure] in [ga4gh.frontend] *)

Module flask_app.

(** The calls [configure] makes on the application's configuration and on
    the CORS extension. *)
Inductive call : Type :=
  | from_object (name : string)
  | from_envvar (variable : string)
  | from_pyfile (filename : string)
  | CORS (allow_headers : string).

(** The application, outside the module: a call returns or raises, which
    may depend on the calls made before it. *)
Class App : Type := {
  perform : list call -> call -> option exn }.

(** A computation that makes calls on the application: from the calls made
    so far to its result and the calls made by its end. *)
Definition action (A : Type) : Type := list call -> outcome A * list call.

Global Instance action_ret : MRet action := fun A a trace =>
  (Returned a, trace).
Global Instance action_bind : MBind action := fun A B k m trace =>
  match m trace with
  | (Returned a, trace') => k a trace'
  | (Raised e, trace') => (Raised e, trace')
  end.

Definition raise {A : Type} (e : exn) : action A := fun trace =>
  (Raised e, trace).

(** Making the call [c]: it is recorded whether it returns or raises. *)
Definition do_call `{App} (c : call) : action unit := fun trace =>
  (match perform trace c with
   | Some e => Raised e
   | None => Returned tt
   end, (trace ++ [c])%list).

End flask_app.

Module frontend_configure.
Import flask_app.

(** [configure(config, config_file)]; [environ] is [os.environ.get].  The
    module defines no name [args], so evaluating [args.config_file], the
    argument of [from_pyfile], raises [NameError], written
    [Exception "NameError"]. *)
Definition configure `{App} (environ : string -> option string)
    (config : string) (config_file : option string) : action unit :=
  let configStr := ("ga4gh.serverconfig:" ++ config)%string in
  _ ← do_call (from_object configStr);
  _ ← match environ "GA4GH_CONFIGURATION" with
      | Some _ => do_call (from_envvar "GA4GH_CONFIGURATION")
      | None => mret tt
      end;
  _ ← match config_file with
      | Some _ => raise (Exception "NameError")
      | None => mret tt
      end;
  do_call (CORS "Content-Type").

End frontend_configure.

(** * More concrete data *)

Module MoreExamples.

(** An application whose calls all return. *)
Definition willing_app : flask_app.App :=
  {| flask_app.perform := fun _ _ => None |}.

(** A JSON POST request. *)
Definition json_post : flask.Request :=
  {| flask.method := "POST";
     flask.mimetype := "application/json";
     flask.get_data := "{}" |}.



End MoreExamples.

(** * Properties *)

Example convert_read_first :
  @HtslibReadGroup.convertReadAlignment Examples.mixin
    (Examples.readGroup []) Examples.read_first
  = Returned Examples.alignment_first.
Proof. vm_compute. reflexivity. Qed.

Example convert_read_both :
  @HtslibReadGroup.convertReadAlignment Examples.mixin
    (Examples.readGroup []) Examples.read_both
  = Returned Examples.alignment_both.
Proof. vm_compute. reflexivity. Qed.

Example convert_read_code9 :
  @HtslibReadGroup.convertReadAlignment Examples.mixin
    (Examples.readGroup []) Examples.read_code9
  = Raised IndexError.
Proof. vm_compute. reflexivity. Qed.

(** ** Results of calls *)

Lemma bind_Returned {A B : Type} (m : outcome A) (k : A -> outcome B) (b : B) :
  m ≫= k = Returned b -> exists a, m = Returned a /\ k a = Returned b.
Proof. destruct m as [a|e]; simpl; [eauto | discriminate]. Qed.

(** ** Indexing a list *)

Lemma list_getitem_lookup {A : Type} (l : list A) (n : nat) (x : A) :
  l !! n = Some x -> list_getitem l (Z.of_nat n) = Returned x.
Proof.
  intros Hx. pose proof (lookup_lt_Some _ _ _ Hx) as Hlt.
  unfold list_getitem. cbv zeta.
  rewrite (proj2 (Z.ltb_ge (Z.of_nat n) 0)) by lia. cbv iota.
  rewrite (proj2 (Z.ltb_ge (Z.of_nat n) 0)) by lia.
  rewrite (proj2 (Z.leb_gt (Z.of_nat (length l)) (Z.of_nat n))) by lia.
  cbn [orb]. rewrite Nat2Z.id, Hx. reflexivity.
Qed.

Lemma list_getitem_from_end {A : Type} (l : list A) (i : Z) :
  - Z.of_nat (length l) <= i < 0 ->
  list_getitem l i = list_getitem l (i + Z.of_nat (length l)).
Proof.
  intros Hi. unfold list_getitem. cbv zeta.
  rewrite (proj2 (Z.ltb_lt i 0)) by lia. cbv iota.
  repeat (rewrite (proj2 (Z.ltb_ge (i + Z.of_nat (length l)) 0)) by lia;
          cbv iota).
  reflexivity.
Qed.

Lemma list_getitem_outside {A : Type} (l : list A) (i : Z) :
  i < - Z.of_nat (length l) \/ Z.of_nat (length l) <= i ->
  list_getitem l i = Raised IndexError.
Proof.
  intros Hi. unfold list_getitem. cbv zeta.
  destruct (Z.ltb_spec i 0) as [Hneg|Hpos].
  - rewrite (proj2 (Z.ltb_lt (i + Z.of_nat (length l)) 0)) by lia.
    reflexivity.
  - rewrite (proj2 (Z.leb_le (Z.of_nat (length l)) i)) by lia.
    rewrite orb_true_r. reflexivity.
Qed.

(** ** The CIGAR code translator *)

Lemma py_eq_true (a b : pyobj) : py_eq a b = true <-> a = b.
Proof. unfold py_eq. apply bool_decide_eq_true. Qed.

(** The scan gives [None] for a value the list does not hold, and otherwise
    the offset of the first position that holds it. *)
Lemma ga2int_loop_first (value : pyobj) (l : list pyobj) :
  forall i : Z,
    (value ∉ l -> SamCigar.ga2int_loop value i l = PyNone) /\
    (value ∈ l -> exists n : nat,
        SamCigar.ga2int_loop value i l = PyInt (i + Z.of_nat n) /\
        l !! n = Some value /\
        forall j : nat, (j < n)%nat -> l !! j <> Some value).
Proof.
  induction l as [|x l IH]; intros i; simpl.
  - split; [reflexivity|]. intros Hin. inversion Hin.
  - destruct (py_eq value x) eqn:Heq.
    + apply py_eq_true in Heq. subst x. split.
      * intros Hnot. exfalso. apply Hnot. left.
      * intros _. exists 0%nat. split; [f_equal; lia|].
        split; [reflexivity|]. intros j Hj. lia.
    + assert (value <> x) as Hne.
      { intros ->. rewrite (proj2 (py_eq_true x x) eq_refl) in Heq.
        discriminate. }
      destruct (IH (i + 1)) as [IHnot IHin]. split.
      * intros Hnot. apply IHnot. intros Hin. apply Hnot. by right.
      * intros Hin. apply elem_of_cons in Hin as [->|Hin]; [done|].
        destruct (IHin Hin) as (n & Hn & Hlook & Hfirst).
        exists (S n). split; [rewrite Hn; f_equal; lia|].
        split; [exact Hlook|].
        intros [|j] Hj; simpl.
        -- intros [= Hx]. by subst x.
        -- apply Hfirst. lia.
Qed.

Lemma cigarStrings_NoDup : NoDup SamCigar.cigarStrings.
Proof. apply (bool_decide_unpack _). vm_compute. exact I. Qed.

Lemma cigarStrings_length : length SamCigar.cigarStrings = 9%nat.
Proof. reflexivity. Qed.

(** ** Flags *)

Lemma land_pow2 (f n : Z) :
  0 <= n -> Z.land f (2 ^ n) = if Z.testbit f n then 2 ^ n else 0.
Proof.
  intros Hn. apply Z.bits_inj'. intros m Hm.
  rewrite Z.land_spec, Z.pow2_bits_eqb by lia.
  destruct (Z.eqb_spec n m) as [->|Hne].
  - destruct (Z.testbit f m); simpl.
    + rewrite Z.pow2_bits_eqb by lia. symmetry. apply Z.eqb_refl.
    + symmetry. apply Z.bits_0.
  - rewrite andb_false_r. destruct (Z.testbit f n).
    + rewrite Z.pow2_bits_eqb by lia. symmetry. by apply Z.eqb_neq.
    + symmetry. apply Z.bits_0.
Qed.

(** Testing a single-bit mask reads that bit of the flag field. *)
Lemma isFlagSet_pow2 (f n : Z) :
  0 <= n -> SamFlags.isFlagSet f (2 ^ n) = Z.testbit f n.
Proof.
  intros Hn. unfold SamFlags.isFlagSet. rewrite land_pow2 by lia.
  assert (0 < 2 ^ n) by (apply Z.pow_pos_nonneg; lia).
  destruct (Z.testbit f n).
  - apply Z.eqb_refl.
  - apply Z.eqb_neq. lia.
Qed.

(** A pure bit-set would satisfy the test: the bits of [b] are set in
    [f | b]. *)
Lemma isFlagSet_lor (f b : Z) : SamFlags.isFlagSet (Z.lor f b) b = true.
Proof.
  unfold SamFlags.isFlagSet. apply Z.eqb_eq. apply Z.bits_inj'. intros n _.
  rewrite Z.land_spec, Z.lor_spec.
  destruct (Z.testbit f n), (Z.testbit b n); reflexivity.
Qed.

Lemma setFlag_None (f b : Z) : SamFlags.setFlag f b = Returned PyNone.
Proof. reflexivity. Qed.

(** C1 (code defect). The claim: the flag-set helper returns [f | b], so
    that testing [b] in the result succeeds.  The code: [setFlag] rebinds its
    local parameter and returns [None]; at [f = 0], [b = 1] it returns [None]
    and not [1], and testing bit [1] in that result raises [TypeError] instead
    of giving true. *)
Theorem setFlag_returns_None_at_0_1 :
  SamFlags.setFlag 0 1 = Returned PyNone /\
  SamFlags.setFlag 0 1 <> Returned (PyInt (Z.lor 0 1)) /\
  (SamFlags.setFlag 0 1 ≫= fun r => SamFlags.isFlagSet_dyn r 1)
    = Raised TypeError /\
  SamFlags.isFlagSet (Z.lor 0 1) 1 = true.
Proof.
  split; [reflexivity|]. split; [discriminate|].
  split; [reflexivity|]. apply isFlagSet_lor.
Qed.

(** C2. Decoding and encoding are mutually inverse on the nine kinds: every
    kind [k] of the fixed list is encoded as an integer that decodes to [k],
    and every code [c] in [0,8] decodes to a kind that is encoded as [c]. *)
Theorem int2ga_ga2int_inverse :
  (forall k : pyobj, k ∈ SamCigar.cigarStrings ->
     exists c : Z, SamCigar.ga2int k = Returned (PyInt c) /\
                   SamCigar.int2ga c = Returned k) /\
  (forall c : Z, 0 <= c <= 8 ->
     exists k : pyobj, SamCigar.int2ga c = Returned k /\
                       SamCigar.ga2int k = Returned (PyInt c)).
Proof.
  split.
  - intros k Hk.
    destruct (ga2int_loop_first k SamCigar.cigarStrings 0) as [_ Hin].
    destruct (Hin Hk) as (n & Hn & Hlook & _).
    exists (Z.of_nat n). split.
    + unfold SamCigar.ga2int. rewrite Hn. reflexivity.
    + unfold SamCigar.int2ga. by apply list_getitem_lookup.
  - intros c Hc.
    assert (Z.to_nat c < length SamCigar.cigarStrings)%nat as Hlt
      by (rewrite cigarStrings_length; lia).
    destruct (lookup_lt_is_Some_2 _ _ Hlt) as [k Hk].
    exists k. split.
    + unfold SamCigar.int2ga.
      rewrite <- (Z2Nat.id c) by lia. by apply list_getitem_lookup.
    + destruct (ga2int_loop_first k SamCigar.cigarStrings 0) as [_ Hin].
      destruct Hin as (n & Hn & Hlook & _).
      { apply list_elem_of_lookup. eauto. }
      pose proof (NoDup_lookup _ _ _ _ cigarStrings_NoDup Hlook Hk) as ->.
      unfold SamCigar.ga2int. rewrite Hn. do 2 f_equal. lia.
Qed.

Lemma int2ga_ga2int_inverse_witness :
  (exists c : Z,
     SamCigar.ga2int protocol.CigarOperation.SKIP = Returned (PyInt c) /\
     SamCigar.int2ga c = Returned protocol.CigarOperation.SKIP) /\
  (exists k : pyobj,
     SamCigar.int2ga 8 = Returned k /\
     SamCigar.ga2int k = Returned (PyInt 8)).
Proof.
  split.
  - apply (proj1 int2ga_ga2int_inverse).
    apply (bool_decide_unpack _). vm_compute. exact I.
  - apply (proj2 int2ga_ga2int_inverse). lia.
Defined.

(** C5 (as the code has it). [ga2int] never raises: for a value that is not
    one of the nine kinds it returns [None], and for a value of the list it
    returns the first index at which the list holds it. *)
Theorem ga2int_first_index_or_None (value : pyobj) :
  (value ∉ SamCigar.cigarStrings ->
     SamCigar.ga2int value = Returned PyNone) /\
  (value ∈ SamCigar.cigarStrings ->
     exists n : nat,
       SamCigar.ga2int value = Returned (PyInt (Z.of_nat n)) /\
       SamCigar.cigarStrings !! n = Some value /\
       forall j : nat, (j < n)%nat -> SamCigar.cigarStrings !! j <> Some value).
Proof.
  destruct (ga2int_loop_first value SamCigar.cigarStrings 0) as [Hnot Hin].
  unfold SamCigar.ga2int. split.
  - intros H. by rewrite Hnot.
  - intros H. destruct (Hin H) as (n & Hn & Hlook & Hfirst).
    exists n. rewrite Hn. auto.
Qed.

Lemma ga2int_first_index_or_None_witness :
  SamCigar.ga2int (PyStr "BOGUS") = Returned PyNone /\
  exists n : nat,
    SamCigar.ga2int protocol.CigarOperation.PAD = Returned (PyInt (Z.of_nat n)) /\
    SamCigar.cigarStrings !! n = Some protocol.CigarOperation.PAD /\
    forall j : nat, (j < n)%nat ->
      SamCigar.cigarStrings !! j <> Some protocol.CigarOperation.PAD.
Proof.
  split.
  - apply (proj1 (ga2int_first_index_or_None (PyStr "BOGUS"))).
    apply (bool_decide_unpack _). vm_compute. exact I.
  - apply (proj2 (ga2int_first_index_or_None protocol.CigarOperation.PAD)).
    apply (bool_decide_unpack _). vm_compute. exact I.
Defined.

(** C5, the claim as stated fails: the string "BOGUS" is not one of the nine
    kinds, and [ga2int] returns [None] for it; it raises nothing. *)
Lemma ga2int_unknown_returns_None :
  (PyStr "BOGUS" ∉ SamCigar.cigarStrings) /\
  SamCigar.ga2int (PyStr "BOGUS") = Returned PyNone /\
  ~ (exists e : exn, SamCigar.ga2int (PyStr "BOGUS") = Raised e).
Proof.
  split; [apply (bool_decide_unpack _); vm_compute; exact I|].
  split; [reflexivity|]. intros [e He]. discriminate He.
Qed.

(** C6 (as the code has it). [int2ga] is a plain list lookup: a code in
    [0,8] gives the kind at that position; a code in [-9,-1] counts from the
    end of the list and gives the kind at position [code + 9]; any other code
    raises [IndexError], so no kind is produced. *)
Theorem int2ga_by_range (code : Z) :
  (0 <= code <= 8 ->
     exists k : pyobj,
       SamCigar.cigarStrings !! Z.to_nat code = Some k /\
       SamCigar.int2ga code = Returned k) /\
  (-9 <= code <= -1 ->
     exists k : pyobj,
       SamCigar.cigarStrings !! Z.to_nat (code + 9) = Some k /\
       SamCigar.int2ga code = Returned k) /\
  (code < -9 \/ 8 < code -> SamCigar.int2ga code = Raised IndexError).
Proof.
  assert (forall c, 0 <= c <= 8 -> exists k : pyobj,
             SamCigar.cigarStrings !! Z.to_nat c = Some k /\
             SamCigar.int2ga c = Returned k) as Hin.
  { intros c Hc.
    assert (Z.to_nat c < length SamCigar.cigarStrings)%nat as Hlt
      by (rewrite cigarStrings_length; lia).
    destruct (lookup_lt_is_Some_2 _ _ Hlt) as [k Hk].
    exists k. split; [exact Hk|]. unfold SamCigar.int2ga.
    rewrite <- (Z2Nat.id c) by lia. by apply list_getitem_lookup. }
  split; [apply Hin|]. split.
  - intros Hc. destruct (Hin (code + 9)) as (k & Hk & Hget); [lia|].
    exists k. split; [exact Hk|]. unfold SamCigar.int2ga in *.
    rewrite list_getitem_from_end by (rewrite cigarStrings_length; lia).
    rewrite cigarStrings_length. exact Hget.
  - intros Hc. unfold SamCigar.int2ga. apply list_getitem_outside.
    rewrite cigarStrings_length. lia.
Qed.

Lemma int2ga_by_range_witness :
  (exists k : pyobj,
     SamCigar.cigarStrings !! Z.to_nat 3 = Some k /\
     SamCigar.int2ga 3 = Returned k) /\
  (exists k : pyobj,
     SamCigar.cigarStrings !! Z.to_nat (-2 + 9) = Some k /\
     SamCigar.int2ga (-2) = Returned k) /\
  SamCigar.int2ga 9 = Raised IndexError.
Proof.
  split; [apply (proj1 (int2ga_by_range 3)); lia|].
  split; [apply (proj1 (proj2 (int2ga_by_range (-2)))); lia|].
  apply (proj2 (proj2 (int2ga_by_range 9))). right; lia.
Defined.

(** C6, the claim as stated fails: the code -1 lies outside [0,8], yet
    [int2ga] returns a kind for it, the last one of the list. *)
Lemma int2ga_minus_one_returns_kind :
  ~ (0 <= -1 <= 8) /\
  SamCigar.int2ga (-1) = Returned protocol.CigarOperation.SEQUENCE_MISMATCH.
Proof. split; [lia | reflexivity]. Qed.

(** ** The mapper *)

Section Mapper.
Context `{PysamDatamodelMixin}.
Import protocol.

(** The units the CIGAR loop appends follow the raw pairs one for one, in
    order: each holds the decoded operation, the length as it is and no
    reference sequence. *)
Lemma cigar_loop_Returned (rest : list (Z * Z)) :
  forall built cigar : list CigarUnit.t,
    HtslibReadGroup.cigar_loop built rest = Returned cigar ->
    exists units : list CigarUnit.t,
      cigar = (built ++ units)%list /\
      Forall2 (fun pair unit =>
                 SamCigar.int2ga pair.1 = Returned (CigarUnit.operation unit) /\
                 CigarUnit.operationLength unit = pair.2 /\
                 CigarUnit.referenceSequence unit = None) rest units.
Proof.
  induction rest as [|[operation len] rest IH]; intros built cigar Hloop.
  - simpl in Hloop. injection Hloop as <-. exists [].
    split; [by rewrite app_nil_r | constructor].
  - simpl in Hloop. apply bind_Returned in Hloop as (op & Hop & Hloop).
    apply IH in Hloop as (units & -> & Hunits).
    eexists (_ :: units). split; [by rewrite <- app_assoc|].
    constructor; [|exact Hunits]. simpl. auto.
Qed.

Lemma convert_nextMatePosition_Returned
    (self : HtslibReadGroup.t) (read : pysam.AlignedSegment)
    (mate : option Position.t) :
  HtslibReadGroup.convert_nextMatePosition self read = Returned mate ->
  (pysam.next_reference_id read = -1 /\ mate = None) \/
  (pysam.next_reference_id read <> -1 /\
   exists name : string,
     pysam.getrname (HtslibReadGroup._samFile self)
       (pysam.next_reference_id read) = Returned name /\
     mate = Some {| Position.referenceName := name;
                    Position.position := pysam.next_reference_start read;
                    Position.strand := Strand.POS_STRAND |}).
Proof.
  unfold HtslibReadGroup.convert_nextMatePosition.
  destruct (Z.eqb_spec (pysam.next_reference_id read) (-1)) as [Heq|Hne];
    simpl; intros Hmate.
  - left. split; [exact Heq | congruence].
  - right. split; [exact Hne|].
    apply bind_Returned in Hmate as (_ & _ & Hmate).
    apply bind_Returned in Hmate as (name & Hname & Hmate).
    exists name. split; [exact Hname | congruence].
Qed.

(** What a returned record holds, field by field. *)
Lemma convertReadAlignment_Returned
    (self : HtslibReadGroup.t) (read : pysam.AlignedSegment)
    (ret : ReadAlignment.t) :
  HtslibReadGroup.convertReadAlignment self read = Returned ret ->
  Position.strand (LinearAlignment.position (ReadAlignment.alignment ret))
    = Strand.POS_STRAND /\
  HtslibReadGroup.cigar_loop [] (pysam.cigar read)
    = Returned (LinearAlignment.cigar (ReadAlignment.alignment ret)) /\
  HtslibReadGroup.convert_nextMatePosition self read
    = Returned (ReadAlignment.nextMatePosition ret) /\
  (ReadAlignment.numberReads ret, ReadAlignment.readNumber ret)
    = HtslibReadGroup.convert_numberReads (pysam.flag read) /\
  ReadAlignment.properPlacement ret
    = SamFlags.isFlagSet (pysam.flag read) SamFlags.PROPER_PLACEMENT /\
  ReadAlignment.secondaryAlignment ret
    = SamFlags.isFlagSet (pysam.flag read) SamFlags.SECONDARY_ALIGNMENT.
Proof.
  unfold HtslibReadGroup.convertReadAlignment. intros Hret.
  apply bind_Returned in Hret as (quality & _ & Hret).
  apply bind_Returned in Hret as (_ & _ & Hret).
  apply bind_Returned in Hret as (name & _ & Hret). cbv zeta in Hret.
  apply bind_Returned in Hret as (cigar & Hcigar & Hret).
  apply bind_Returned in Hret as (mate & Hmate & Hret).
  destruct (HtslibReadGroup.convert_numberReads (pysam.flag read))
    as [numberReads readNumber].
  injection Hret as <-. simpl. auto 10.
Qed.

Lemma convert_numberReads_bits (flag : Z) :
  HtslibReadGroup.convert_numberReads flag =
    if Z.testbit flag 0 then
      (Some 2,
       if Z.testbit flag 6 then Some 0
       else if Z.testbit flag 7 then Some 1 else None)
    else (None, None).
Proof.
  unfold HtslibReadGroup.convert_numberReads.
  change SamFlags.NUMBER_READS with (2 ^ 0).
  change SamFlags.READ_NUMBER_ONE with (2 ^ 6).
  change SamFlags.READ_NUMBER_TWO with (2 ^ 7).
  rewrite !isFlagSet_pow2 by lia. reflexivity.
Qed.

(** The loop yields the records of a prefix of its input, in order; it ends
    normally after the whole input, or with the exception of the first record
    that does not convert. *)
Lemma yield_loop_prefix (self : HtslibReadGroup.t)
    (reads : list pysam.AlignedSegment) :
  forall (out : list ReadAlignment.t) (ending : option exn),
    HtslibReadGroup.yield_loop self reads = (out, ending) ->
    exists n : nat,
      Forall2 (fun read ret =>
                 HtslibReadGroup.convertReadAlignment self read = Returned ret)
        (take n reads) out /\
      match ending with
      | None => n = length reads
      | Some e => exists read,
          reads !! n = Some read /\
          HtslibReadGroup.convertReadAlignment self read = Raised e
      end.
Proof.
  induction reads as [|read reads IH]; intros out ending; simpl.
  - intros [= <- <-]. exists 0%nat. split; [constructor | reflexivity].
  - destruct (HtslibReadGroup.convertReadAlignment self read)
      as [ret|e] eqn:Hconv.
    + destruct (HtslibReadGroup.yield_loop self reads) as [out' ending'].
      intros [= <- <-]. destruct (IH _ _ eq_refl) as (n & Hout & Hend).
      exists (S n). split; [by constructor|].
      destruct ending'; [exact Hend | by f_equal].
    + intros [= <- <-]. exists 0%nat. split; [constructor|]. eauto.
Qed.

(** When every record converts, the loop yields one record per input and
    ends normally. *)
Lemma yield_loop_all (self : HtslibReadGroup.t)
    (reads : list pysam.AlignedSegment) :
  Forall (fun read => exists ret,
            HtslibReadGroup.convertReadAlignment self read = Returned ret)
    reads ->
  exists out : list ReadAlignment.t,
    HtslibReadGroup.yield_loop self reads = (out, None) /\
    Forall2 (fun read ret =>
               HtslibReadGroup.convertReadAlignment self read = Returned ret)
      reads out.
Proof.
  induction 1 as [|read reads [ret Hret] _ (out & Hloop & Hout)]; simpl.
  - exists []. split; [reflexivity | constructor].
  - rewrite Hret, Hloop. exists (ret :: out). split; [reflexivity|].
    by constructor.
Qed.

End Mapper.

(** C3. For every record the mapper returns: when bit 0x1 of the flag is
    clear, [numberReads] and [readNumber] are both null; when it is set,
    [numberReads] is 2 and [readNumber] is 0 if bit 0x40 is set, else 1 if bit
    0x80 is set, else null.  A record with flag 0x43 has properPlacement true,
    numberReads 2, readNumber 0 and secondaryAlignment false. *)
Theorem convertReadAlignment_numberReads `{PysamDatamodelMixin}
    (self : HtslibReadGroup.t) (read : pysam.AlignedSegment)
    (ret : protocol.ReadAlignment.t) :
  HtslibReadGroup.convertReadAlignment self read = Returned ret ->
  (Z.testbit (pysam.flag read) 0 = false ->
     protocol.ReadAlignment.numberReads ret = None /\
     protocol.ReadAlignment.readNumber ret = None) /\
  (Z.testbit (pysam.flag read) 0 = true ->
     protocol.ReadAlignment.numberReads ret = Some 2 /\
     (Z.testbit (pysam.flag read) 6 = true ->
        protocol.ReadAlignment.readNumber ret = Some 0) /\
     (Z.testbit (pysam.flag read) 6 = false ->
      Z.testbit (pysam.flag read) 7 = true ->
        protocol.ReadAlignment.readNumber ret = Some 1) /\
     (Z.testbit (pysam.flag read) 6 = false ->
      Z.testbit (pysam.flag read) 7 = false ->
        protocol.ReadAlignment.readNumber ret = None)) /\
  (pysam.flag read = 0x43 ->
     protocol.ReadAlignment.properPlacement ret = true /\
     protocol.ReadAlignment.numberReads ret = Some 2 /\
     protocol.ReadAlignment.readNumber ret = Some 0 /\
     protocol.ReadAlignment.secondaryAlignment ret = false).
Proof.
  intros Hret.
  destruct (convertReadAlignment_Returned _ _ _ Hret)
    as (_ & _ & _ & Hnum & Hproper & Hsecondary).
  rewrite convert_numberReads_bits in Hnum.
  split; [|split].
  - intros H0. rewrite H0 in Hnum. by apply pair_equal_spec in Hnum.
  - intros H0. rewrite H0 in Hnum.
    apply pair_equal_spec in Hnum as [-> ->].
    split; [reflexivity|]. split; [|split].
    + by intros ->.
    + by intros -> ->.
    + by intros -> ->.
  - intros Hflag. rewrite Hflag in Hnum, Hproper, Hsecondary.
    assert (protocol.ReadAlignment.numberReads ret = Some 2 /\
            protocol.ReadAlignment.readNumber ret = Some 0) as [-> ->]
      by (apply pair_equal_spec; rewrite Hnum; reflexivity).
    rewrite Hproper, Hsecondary. repeat split; reflexivity.
Qed.

Lemma convertReadAlignment_numberReads_witness :
  protocol.ReadAlignment.properPlacement Examples.alignment_first = true /\
  protocol.ReadAlignment.numberReads Examples.alignment_first = Some 2 /\
  protocol.ReadAlignment.readNumber Examples.alignment_first = Some 0 /\
  protocol.ReadAlignment.secondaryAlignment Examples.alignment_first = false.
Proof.
  apply (proj2 (proj2
    (@convertReadAlignment_numberReads Examples.mixin
       (Examples.readGroup []) Examples.read_first Examples.alignment_first
       convert_read_first))).
  reflexivity.
Defined.

(** C4. For every record the mapper returns: [nextMatePosition] is null
    exactly when the raw next-reference index is -1; otherwise it is the
    position made of the name looked up for that index, the raw next-reference
    start as it is, and the positive strand. *)
Theorem convertReadAlignment_nextMatePosition `{PysamDatamodelMixin}
    (self : HtslibReadGroup.t) (read : pysam.AlignedSegment)
    (ret : protocol.ReadAlignment.t) :
  HtslibReadGroup.convertReadAlignment self read = Returned ret ->
  (protocol.ReadAlignment.nextMatePosition ret = None <->
   pysam.next_reference_id read = -1) /\
  (pysam.next_reference_id read <> -1 ->
   exists name : string,
     pysam.getrname (HtslibReadGroup._samFile self)
       (pysam.next_reference_id read) = Returned name /\
     protocol.ReadAlignment.nextMatePosition ret =
       Some {| protocol.Position.referenceName := name;
               protocol.Position.position := pysam.next_reference_start read;
               protocol.Position.strand := protocol.Strand.POS_STRAND |}).
Proof.
  intros Hret.
  destruct (convertReadAlignment_Returned _ _ _ Hret)
    as (_ & _ & Hmate & _).
  apply convert_nextMatePosition_Returned in Hmate
    as [[Heq Hnone] | (Hne & name & Hname & Hsome)].
  - split; [by split|]. intros Hne. contradiction.
  - split.
    + rewrite Hsome. split; [discriminate | contradiction].
    + intros _. eauto.
Qed.

Lemma convertReadAlignment_nextMatePosition_witness :
  (protocol.ReadAlignment.nextMatePosition Examples.alignment_first = None <->
   pysam.next_reference_id Examples.read_first = -1) /\
  exists name : string,
    pysam.getrname (Examples.samFile []) 1 = Returned name /\
    protocol.ReadAlignment.nextMatePosition Examples.alignment_both =
      Some (protocol.Position.mk name 250 protocol.Strand.POS_STRAND).
Proof.
  split.
  - apply (proj1
      (@convertReadAlignment_nextMatePosition Examples.mixin
         (Examples.readGroup []) Examples.read_first Examples.alignment_first
         convert_read_first)).
  - apply (proj2
      (@convertReadAlignment_nextMatePosition Examples.mixin
         (Examples.readGroup []) Examples.read_both Examples.alignment_both
         convert_read_both)).
    simpl. lia.
Defined.

(** C7. In every record the mapper returns, the strand of
    [alignment.position] is positive, the strand of [nextMatePosition] is
    positive when there is one, and every CIGAR unit of [alignment.cigar] has a
    null [referenceSequence]. *)
Theorem convertReadAlignment_placeholders `{PysamDatamodelMixin}
    (self : HtslibReadGroup.t) (read : pysam.AlignedSegment)
    (ret : protocol.ReadAlignment.t) :
  HtslibReadGroup.convertReadAlignment self read = Returned ret ->
  protocol.Position.strand
    (protocol.LinearAlignment.position (protocol.ReadAlignment.alignment ret))
    = protocol.Strand.POS_STRAND /\
  (forall mate : protocol.Position.t,
     protocol.ReadAlignment.nextMatePosition ret = Some mate ->
     protocol.Position.strand mate = protocol.Strand.POS_STRAND) /\
  Forall (fun unit => protocol.CigarUnit.referenceSequence unit = None)
    (protocol.LinearAlignment.cigar (protocol.ReadAlignment.alignment ret)).
Proof.
  intros Hret.
  destruct (convertReadAlignment_Returned _ _ _ Hret)
    as (Hstrand & Hcigar & Hmate & _).
  split; [exact Hstrand|]. split.
  - intros mate Hsome.
    apply convert_nextMatePosition_Returned in Hmate
      as [[_ Hnone] | (_ & name & _ & Hpos)]; [congruence|].
    rewrite Hpos in Hsome. by injection Hsome as <-.
  - apply cigar_loop_Returned in Hcigar as (units & -> & Hunits).
    simpl. clear Hret Hmate. induction Hunits as [|pair unit ? ? Hunit _ IH].
    + constructor.
    + constructor; [apply Hunit | exact IH].
Qed.

Lemma convertReadAlignment_placeholders_witness :
  protocol.Position.strand
    (protocol.LinearAlignment.position
       (protocol.ReadAlignment.alignment Examples.alignment_both))
    = protocol.Strand.POS_STRAND /\
  (forall mate : protocol.Position.t,
     protocol.ReadAlignment.nextMatePosition Examples.alignment_both
       = Some mate ->
     protocol.Position.strand mate = protocol.Strand.POS_STRAND) /\
  Forall (fun unit => protocol.CigarUnit.referenceSequence unit = None)
    (protocol.LinearAlignment.cigar
       (protocol.ReadAlignment.alignment Examples.alignment_both)).
Proof.
  exact (@convertReadAlignment_placeholders Examples.mixin
           (Examples.readGroup []) Examples.read_both Examples.alignment_both
           convert_read_both).
Defined.

(** C10. For every record the mapper returns whose flag has the bits 0x1,
    0x40 and 0x80 all set, [readNumber] is 0: the first-in-pair test comes
    before the second-in-pair test. *)
Theorem convertReadAlignment_first_before_second `{PysamDatamodelMixin}
    (self : HtslibReadGroup.t) (read : pysam.AlignedSegment)
    (ret : protocol.ReadAlignment.t) :
  HtslibReadGroup.convertReadAlignment self read = Returned ret ->
  Z.testbit (pysam.flag read) 0 = true ->
  Z.testbit (pysam.flag read) 6 = true ->
  Z.testbit (pysam.flag read) 7 = true ->
  protocol.ReadAlignment.readNumber ret = Some 0.
Proof.
  intros Hret H0 H6 _.
  destruct (convertReadAlignment_Returned _ _ _ Hret)
    as (_ & _ & _ & Hnum & _).
  rewrite convert_numberReads_bits, H0, H6 in Hnum.
  by apply pair_equal_spec in Hnum as [_ ->].
Qed.

Lemma convertReadAlignment_first_before_second_witness :
  protocol.ReadAlignment.readNumber Examples.alignment_both = Some 0.
Proof.
  apply (@convertReadAlignment_first_before_second Examples.mixin
           (Examples.readGroup []) Examples.read_both Examples.alignment_both
           convert_read_both);
    reflexivity.
Defined.

(** C8 (as the code has it). For every finite sequence of raw records that
    [fetch] gives and whose records all convert without an error, the
    generator yields exactly one record per input record, in the order of the
    input, and then ends normally; the output is as long as the input. *)
Theorem getReadAlignments_one_per_record `{PysamDatamodelMixin}
    (self : HtslibReadGroup.t) (referenceId start end_ : option Z)
    (reads : list pysam.AlignedSegment) :
  HtslibReadGroup.fetched self referenceId start end_ = Returned reads ->
  Forall (fun read => exists ret,
            HtslibReadGroup.convertReadAlignment self read = Returned ret)
    reads ->
  exists out : list protocol.ReadAlignment.t,
    HtslibReadGroup.getReadAlignments self referenceId start end_
      = (out, None) /\
    Forall2 (fun read ret =>
               HtslibReadGroup.convertReadAlignment self read = Returned ret)
      reads out /\
    length out = length reads.
Proof.
  intros Hfetch Hall. unfold HtslibReadGroup.getReadAlignments.
  rewrite Hfetch. destruct (yield_loop_all self reads Hall) as (out & -> & Hout).
  exists out. split; [reflexivity|]. split; [exact Hout|].
  symmetry. exact (Forall2_length _ _ _ Hout).
Qed.

Lemma getReadAlignments_one_per_record_witness :
  exists out : list protocol.ReadAlignment.t,
    @HtslibReadGroup.getReadAlignments Examples.mixin
      (Examples.readGroup [Examples.read_first; Examples.read_both])
      (Some 0) None None = (out, None) /\
    Forall2 (fun read ret =>
               @HtslibReadGroup.convertReadAlignment Examples.mixin
                 (Examples.readGroup [Examples.read_first; Examples.read_both])
                 read = Returned ret)
      [Examples.read_first; Examples.read_both] out /\
    length out = 2%nat.
Proof.
  apply (@getReadAlignments_one_per_record Examples.mixin
           (Examples.readGroup [Examples.read_first; Examples.read_both])
           (Some 0) None None [Examples.read_first; Examples.read_both]).
  - reflexivity.
  - constructor; [|constructor; [|constructor]].
    + exists Examples.alignment_first. vm_compute. reflexivity.
    + exists Examples.alignment_both. vm_compute. reflexivity.
Defined.

(** C8, the claim as stated fails: when the second of three records holds
    the CIGAR code 9, the generator yields the first record and is then ended
    by [IndexError]; one record comes out of three. *)
Lemma getReadAlignments_stops_at_code9 :
  @HtslibReadGroup.fetched Examples.mixin
    (Examples.readGroup
       [Examples.read_first; Examples.read_code9; Examples.read_both])
    None None None
  = Returned [Examples.read_first; Examples.read_code9; Examples.read_both] /\
  @HtslibReadGroup.getReadAlignments Examples.mixin
    (Examples.readGroup
       [Examples.read_first; Examples.read_code9; Examples.read_both])
    None None None
  = ([Examples.alignment_first], Some IndexError) /\
  length
    (@HtslibReadGroup.getReadAlignments Examples.mixin
       (Examples.readGroup
          [Examples.read_first; Examples.read_code9; Examples.read_both])
       None None None).1
  <> length [Examples.read_first; Examples.read_code9; Examples.read_both].
Proof.
  split; [reflexivity|]. split; [vm_compute; reflexivity|].
  vm_compute. discriminate.
Qed.

(** ** The frontend *)

Lemma handleHTTPPost_not_json (request : flask.Request)
    (endpoint : string -> outcome string) :
  flask.mimetype request <> "application/json" ->
  frontend.handleHTTPPost request endpoint = Raised UnsupportedMediaType.
Proof.
  intros Hne. unfold frontend.handleHTTPPost.
  destruct (String.eqb_spec (flask.mimetype request) "application/json");
    [contradiction | reflexivity].
Qed.

(** A route that delegates is not one that only raises path-not-found: a
    POST that is not JSON is refused as an unsupported media type. *)
Lemma delegates_not_raises (r : frontend.Rule) :
  frontend.delegates_to_backend r -> ~ frontend.raises_not_implemented r.
Proof.
  intros (m & _ & Hpost) Hraise.
  specialize (Hpost "" Examples.echo_backend Examples.text_post eq_refl).
  rewrite (Hraise "" Examples.echo_backend Examples.text_post) in Hpost.
  rewrite handleHTTPPost_not_json in Hpost by discriminate.
  discriminate Hpost.
Qed.

Lemma routes_named_delegating :
  frontend.routes_named frontend.delegating_endpoints frontend.url_map =
    [ frontend.mkRule "/variantsets/search" ["POST"; "OPTIONS"]
        "searchVariantSets" (fun _ => frontend.searchVariantSets);
      frontend.mkRule "/variants/search" ["POST"; "OPTIONS"]
        "searchVariants" (fun _ => frontend.searchVariants);
      frontend.mkRule "/expressionanalysis/search" ["POST"; "OPTIONS"]
        "searchExpressionAnalysis"
        (fun _ => frontend.searchExpressionAnalysis) ].
Proof. reflexivity. Qed.

Lemma delegating_routes_delegate :
  Forall frontend.delegates_to_backend
    (frontend.routes_named frontend.delegating_endpoints frontend.url_map).
Proof.
  rewrite routes_named_delegating.
  repeat constructor.
  - exists Backend.searchVariantSets. split; [set_solver|].
    intros id backend request Hpost. simpl.
    unfold frontend.searchVariantSets. by rewrite Hpost.
  - exists Backend.searchVariants. split; [set_solver|].
    intros id backend request Hpost. simpl.
    unfold frontend.searchVariants. by rewrite Hpost.
  - exists Backend.searchExpressionAnalysis. split; [set_solver|].
    intros id backend request Hpost. simpl.
    unfold frontend.searchExpressionAnalysis. by rewrite Hpost.
Qed.

Lemma other_routes_raise :
  Forall frontend.raises_not_implemented
    (frontend.routes_not_named frontend.delegating_endpoints frontend.url_map).
Proof.
  assert (frontend.routes_not_named frontend.delegating_endpoints
            frontend.url_map = take 9 frontend.url_map) as -> by reflexivity.
  repeat constructor.
Qed.

(** C9 (as the code has it). Of the twelve routes of the frontend, exactly
    three (searchVariantSets, searchVariants and searchExpressionAnalysis) pass
    a POST request through to the backend, and each of the nine others raises
    the path-not-found error for every request. *)
Theorem three_routes_delegate_nine_raise :
  length frontend.url_map = 12%nat /\
  length (frontend.routes_named frontend.delegating_endpoints
            frontend.url_map) = 3%nat /\
  length (frontend.routes_not_named frontend.delegating_endpoints
            frontend.url_map) = 9%nat /\
  Forall (fun r => frontend.delegates_to_backend r /\
                   ~ frontend.raises_not_implemented r)
    (frontend.routes_named frontend.delegating_endpoints frontend.url_map) /\
  Forall (fun r => frontend.raises_not_implemented r /\
                   ~ frontend.delegates_to_backend r)
    (frontend.routes_not_named frontend.delegating_endpoints
       frontend.url_map).
Proof.
  split; [reflexivity|]. split; [reflexivity|]. split; [reflexivity|]. split.
  - eapply Forall_impl; [exact delegating_routes_delegate|].
    intros r Hr. split; [exact Hr | by apply delegates_not_raises].
  - eapply Forall_impl; [exact other_routes_raise|].
    intros r Hr. split; [exact Hr|].
    intros Hd. by apply (delegates_not_raises r).
Qed.

(** C9, the claim as stated fails: no two routes are such that they delegate
    and every other route raises, because three routes delegate. *)
Lemma not_two_routes_delegate :
  ~ frontend.two_delegate_rest_raise frontend.url_map.
Proof.
  intros (r1 & r2 & _ & _ & _ & _ & _ & Hrest).
  assert (Forall (fun r => frontend.endpoint r = frontend.endpoint r1 \/
                           frontend.endpoint r = frontend.endpoint r2)
            (frontend.routes_named frontend.delegating_endpoints
               frontend.url_map)) as Hnames.
  { apply Forall_forall. intros r Hr.
    pose proof (proj1 (Forall_forall _ _) delegating_routes_delegate r Hr)
      as Hd.
    apply list_elem_of_filter in Hr as [_ Hin].
    pose proof (proj1 (Forall_forall _ _) Hrest r Hin) as Hraise.
    destruct (decide (frontend.endpoint r = frontend.endpoint r1)) as [|Hn1];
      [by left|].
    destruct (decide (frontend.endpoint r = frontend.endpoint r2)) as [|Hn2];
      [by right|].
    exfalso. exact (delegates_not_raises r Hd (Hraise Hn1 Hn2)). }
  rewrite routes_named_delegating in Hnames.
  apply Forall_cons in Hnames as [Ha Hnames].
  apply Forall_cons in Hnames as [Hb Hnames].
  apply Forall_cons in Hnames as [Hc _].
  simpl in Ha, Hb, Hc.
  destruct Ha as [Ha|Ha], Hb as [Hb|Hb], Hc as [Hc|Hc]; congruence.
Qed.

(** ** Further properties of the flags and the CIGAR translator *)

(** X1. [isFlagSet] holds exactly when every bit of the mask is a bit of the
    flag field: a mask of several bits asks for all of them, and the empty
    mask is always set. *)
Theorem isFlagSet_all_bits (flagAttr flag : Z) :
  SamFlags.isFlagSet flagAttr flag = true <->
  (forall n : Z, 0 <= n ->
     Z.testbit flag n = true -> Z.testbit flagAttr n = true).
Proof.
  unfold SamFlags.isFlagSet. rewrite Z.eqb_eq. split.
  - intros Hland n Hn Hbit.
    assert (Z.testbit (Z.land flagAttr flag) n = true) as Hboth
      by (rewrite Hland; exact Hbit).
    rewrite Z.land_spec in Hboth. by apply andb_true_iff in Hboth as [? _].
  - intros Hbits. apply Z.bits_inj'. intros n Hn. rewrite Z.land_spec.
    destruct (Z.testbit flag n) eqn:Hbit.
    + rewrite (Hbits n Hn Hbit). reflexivity.
    + apply andb_false_r.
Qed.

Lemma int2ga_cases (code : Z) :
  (-9 <= code <= 8 /\ exists k : pyobj, SamCigar.int2ga code = Returned k) \/
  ((code < -9 \/ 8 < code) /\ SamCigar.int2ga code = Raised IndexError).
Proof.
  assert (forall c, 0 <= c <= 8 ->
            exists k : pyobj, SamCigar.int2ga c = Returned k) as Hin.
  { intros c Hc.
    assert (Z.to_nat c < length SamCigar.cigarStrings)%nat as Hlt
      by (rewrite cigarStrings_length; lia).
    destruct (lookup_lt_is_Some_2 _ _ Hlt) as [k Hk].
    exists k. unfold SamCigar.int2ga.
    rewrite <- (Z2Nat.id c) by lia. by apply list_getitem_lookup. }
  destruct (decide (-9 <= code <= 8)) as [Hrange|Hout].
  - left. split; [exact Hrange|].
    destruct (decide (0 <= code)) as [Hpos|Hneg]; [apply Hin; lia|].
    destruct (Hin (code + 9)) as [k Hk]; [lia|]. exists k.
    unfold SamCigar.int2ga in *.
    rewrite list_getitem_from_end by (rewrite cigarStrings_length; lia).
    rewrite cigarStrings_length. exact Hk.
  - right. split; [lia|]. unfold SamCigar.int2ga.
    apply list_getitem_outside. rewrite cigarStrings_length. lia.
Qed.

(** X8. The round trip through decode and encode does not give back a
    negative code: for a code [c] in [-9,-1], decoding succeeds and encoding
    the kind gives [c + 9]. *)
Theorem ga2int_int2ga_negative (code : Z) :
  -9 <= code <= -1 ->
  exists k : pyobj,
    SamCigar.int2ga code = Returned k /\
    SamCigar.ga2int k = Returned (PyInt (code + 9)).
Proof.
  intros Hc.
  assert (Z.to_nat (code + 9) < length SamCigar.cigarStrings)%nat as Hlt
    by (rewrite cigarStrings_length; lia).
  destruct (lookup_lt_is_Some_2 _ _ Hlt) as [k Hk].
  exists k. split.
  - unfold SamCigar.int2ga.
    rewrite list_getitem_from_end by (rewrite cigarStrings_length; lia).
    rewrite cigarStrings_length. change (Z.of_nat 9) with 9.
    rewrite <- (Z2Nat.id (code + 9)) by lia.
    by apply list_getitem_lookup.
  - destruct (ga2int_loop_first k SamCigar.cigarStrings 0) as [_ Hin].
    destruct Hin as (n & Hn & Hlook & _).
    { apply list_elem_of_lookup. eauto. }
    pose proof (NoDup_lookup _ _ _ _ cigarStrings_NoDup Hlook Hk) as ->.
    unfold SamCigar.ga2int. rewrite Hn. do 2 f_equal. lia.
Qed.

Lemma ga2int_int2ga_negative_witness :
  exists k : pyobj,
    SamCigar.int2ga (-9) = Returned k /\
    SamCigar.ga2int k = Returned (PyInt (-9 + 9)).
Proof. apply (ga2int_int2ga_negative (-9)). lia. Defined.

(** ** Further properties of the mapper *)

Section MapperFields.
Context `{PysamDatamodelMixin}.
Import protocol.

(** The CIGAR loop either converts every pair, all codes lying in [-9,8],
    or is ended by [IndexError] at a code outside that range. *)
Lemma cigar_loop_cases (rest : list (Z * Z)) :
  forall built : list CigarUnit.t,
    (Forall (fun pair => -9 <= pair.1 <= 8) rest /\
     exists cigar, HtslibReadGroup.cigar_loop built rest = Returned cigar) \/
    (Exists (fun pair => pair.1 < -9 \/ 8 < pair.1) rest /\
     HtslibReadGroup.cigar_loop built rest = Raised IndexError).
Proof.
  induction rest as [|[operation len] rest IH]; intros built; simpl.
  - left. split; [constructor | eauto].
  - destruct (int2ga_cases operation) as [[Hin [k ->]] | [Hout ->]]; simpl.
    + destruct (IH (built ++
        [{| CigarUnit.operation := k; CigarUnit.operationLength := len;
            CigarUnit.referenceSequence := None |}])%list)
        as [[Hall Hret] | [Hsome Hraise]].
      * left. split; [by constructor | exact Hret].
      * right. split; [by apply Exists_cons_tl | exact Hraise].
    + right. split; [by apply Exists_cons_hd | reflexivity].
Qed.

(** Every field of a returned record, in terms of the raw record. *)
Lemma convertReadAlignment_fields
    (self : HtslibReadGroup.t) (read : pysam.AlignedSegment)
    (ret : ReadAlignment.t) :
  HtslibReadGroup.convertReadAlignment self read = Returned ret ->
  pysam.query_qualities read = Some (ReadAlignment.alignedQuality ret) /\
  sanitizeGetRName (pysam.reference_id read) = Returned tt /\
  pysam.getrname (HtslibReadGroup._samFile self) (pysam.reference_id read)
    = Returned (Position.referenceName
                  (LinearAlignment.position (ReadAlignment.alignment ret))) /\
  ReadAlignment.alignedSequence ret = pysam.query_sequence read /\
  LinearAlignment.mappingQuality (ReadAlignment.alignment ret)
    = pysam.mapping_quality read /\
  Position.position (LinearAlignment.position (ReadAlignment.alignment ret))
    = pysam.reference_start read /\
  ReadAlignment.fragmentLength ret = pysam.template_length read /\
  ReadAlignment.fragmentName ret = pysam.query_name read /\
  ReadAlignment.readGroupId ret = HtslibReadGroup._id self /\
  ReadAlignment.id ret
    = HtslibReadGroup.format_pair (HtslibReadGroup._id self)
        (pysam.query_name read) /\
  ReadAlignment.info ret = HtslibReadGroup.info_of_tags (pysam.tags read) /\
  ReadAlignment.duplicateFragment ret
    = SamFlags.isFlagSet (pysam.flag read) SamFlags.DUPLICATE_FRAGMENT /\
  ReadAlignment.failedVendorQualityChecks ret
    = SamFlags.isFlagSet (pysam.flag read)
        SamFlags.FAILED_VENDOR_QUALITY_CHECKS /\
  ReadAlignment.supplementaryAlignment ret
    = SamFlags.isFlagSet (pysam.flag read) SamFlags.SUPPLEMENTARY_ALIGNMENT.
Proof.
  unfold HtslibReadGroup.convertReadAlignment. intros Hret.
  apply bind_Returned in Hret as (quality & Hquality & Hret).
  apply bind_Returned in Hret as ([] & Hsane & Hret).
  apply bind_Returned in Hret as (name & Hname & Hret). cbv zeta in Hret.
  apply bind_Returned in Hret as (cigar & _ & Hret).
  apply bind_Returned in Hret as (mate & _ & Hret).
  destruct (HtslibReadGroup.convert_numberReads (pysam.flag read))
    as [numberReads readNumber].
  injection Hret as <-. cbn [ReadAlignment.alignedQuality
    ReadAlignment.alignedSequence ReadAlignment.alignment
    ReadAlignment.fragmentLength ReadAlignment.fragmentName
    ReadAlignment.readGroupId ReadAlignment.id ReadAlignment.info
    ReadAlignment.duplicateFragment ReadAlignment.failedVendorQualityChecks
    ReadAlignment.supplementaryAlignment LinearAlignment.mappingQuality
    LinearAlignment.position Position.position Position.referenceName].
  split.
  { unfold HtslibReadGroup.py_list in Hquality.
    destruct (pysam.query_qualities read); congruence. }
  auto 20.
Qed.

End MapperFields.

(** The dictionary built from the tags, looked up at a key: untouched by
    pairs with another key, and holding the value of the last pair with that
    key. *)
Lemma info_fold_other (tags : list (string * pyobj)) (key : string) :
  forall d : gmap string (list string),
    key ∉ tags.*1 ->
    foldl (fun d kv => <[kv.1 := [py_str kv.2]]> d) d tags !! key = d !! key.
Proof.
  induction tags as [|[k v] tags IH]; intros d Hnot; simpl; [reflexivity|].
  rewrite fmap_cons, not_elem_of_cons in Hnot. destruct Hnot as [Hne Hnot].
  rewrite IH by exact Hnot. simpl. by apply lookup_insert_ne.
Qed.

Lemma info_of_tags_last (before after : list (string * pyobj))
    (key : string) (value : pyobj) :
  key ∉ after.*1 ->
  HtslibReadGroup.info_of_tags (before ++ (key, value) :: after) !! key
    = Some [py_str value].
Proof.
  intros Hnot. unfold HtslibReadGroup.info_of_tags.
  rewrite foldl_app. simpl. rewrite info_fold_other by exact Hnot.
  simpl. apply lookup_insert_eq.
Qed.

(** X2. In a returned record each boolean field is one bit of the raw flag:
    duplicateFragment bit 10 (0x400), failedVendorQualityChecks bit 9 (0x200),
    properPlacement bit 1 (0x2), secondaryAlignment bit 8 (0x100) and
    supplementaryAlignment bit 11 (0x800). *)
Theorem convertReadAlignment_flag_bits `{PysamDatamodelMixin}
    (self : HtslibReadGroup.t) (read : pysam.AlignedSegment)
    (ret : protocol.ReadAlignment.t) :
  HtslibReadGroup.convertReadAlignment self read = Returned ret ->
  protocol.ReadAlignment.duplicateFragment ret
    = Z.testbit (pysam.flag read) 10 /\
  protocol.ReadAlignment.failedVendorQualityChecks ret
    = Z.testbit (pysam.flag read) 9 /\
  protocol.ReadAlignment.properPlacement ret
    = Z.testbit (pysam.flag read) 1 /\
  protocol.ReadAlignment.secondaryAlignment ret
    = Z.testbit (pysam.flag read) 8 /\
  protocol.ReadAlignment.supplementaryAlignment ret
    = Z.testbit (pysam.flag read) 11.
Proof.
  intros Hret.
  destruct (convertReadAlignment_Returned _ _ _ Hret)
    as (_ & _ & _ & _ & Hproper & Hsecondary).
  destruct (convertReadAlignment_fields _ _ _ Hret)
    as (_ & _ & _ & _ & _ & _ & _ & _ & _ & _ & _ & Hdup & Hfail & Hsupp).
  rewrite Hdup, Hfail, Hproper, Hsecondary, Hsupp.
  change SamFlags.DUPLICATE_FRAGMENT with (2 ^ 10).
  change SamFlags.FAILED_VENDOR_QUALITY_CHECKS with (2 ^ 9).
  change SamFlags.PROPER_PLACEMENT with (2 ^ 1).
  change SamFlags.SECONDARY_ALIGNMENT with (2 ^ 8).
  change SamFlags.SUPPLEMENTARY_ALIGNMENT with (2 ^ 11).
  rewrite !isFlagSet_pow2 by lia. auto.
Qed.

Lemma convertReadAlignment_flag_bits_witness :
  protocol.ReadAlignment.duplicateFragment Examples.alignment_first
    = Z.testbit (pysam.flag Examples.read_first) 10 /\
  protocol.ReadAlignment.failedVendorQualityChecks Examples.alignment_first
    = Z.testbit (pysam.flag Examples.read_first) 9 /\
  protocol.ReadAlignment.properPlacement Examples.alignment_first
    = Z.testbit (pysam.flag Examples.read_first) 1 /\
  protocol.ReadAlignment.secondaryAlignment Examples.alignment_first
    = Z.testbit (pysam.flag Examples.read_first) 8 /\
  protocol.ReadAlignment.supplementaryAlignment Examples.alignment_first
    = Z.testbit (pysam.flag Examples.read_first) 11.
Proof.
  exact (@convertReadAlignment_flag_bits Examples.mixin
           (Examples.readGroup []) Examples.read_first
           Examples.alignment_first convert_read_first).
Defined.

(** X3. The CIGAR of a returned record follows the raw CIGAR pair by pair,
    in order: as many units as pairs, each with the operation decoded from
    the pair's code and the pair's length as it is. *)
Theorem convertReadAlignment_cigar_units `{PysamDatamodelMixin}
    (self : HtslibReadGroup.t) (read : pysam.AlignedSegment)
    (ret : protocol.ReadAlignment.t) :
  HtslibReadGroup.convertReadAlignment self read = Returned ret ->
  Forall2 (fun pair unit =>
             SamCigar.int2ga pair.1
               = Returned (protocol.CigarUnit.operation unit) /\
             protocol.CigarUnit.operationLength unit = pair.2)
    (pysam.cigar read)
    (protocol.LinearAlignment.cigar (protocol.ReadAlignment.alignment ret)).
Proof.
  intros Hret.
  destruct (convertReadAlignment_Returned _ _ _ Hret)
    as (_ & Hcigar & _).
  apply cigar_loop_Returned in Hcigar as (units & -> & Hunits). simpl.
  eapply Forall2_impl; [exact Hunits|].
  intros pair unit (Hop & Hlen & _). by split.
Qed.

Lemma convertReadAlignment_cigar_units_witness :
  Forall2 (fun pair unit =>
             SamCigar.int2ga pair.1
               = Returned (protocol.CigarUnit.operation unit) /\
             protocol.CigarUnit.operationLength unit = pair.2)
    (pysam.cigar Examples.read_first)
    (protocol.LinearAlignment.cigar
       (protocol.ReadAlignment.alignment Examples.alignment_first)).
Proof.
  exact (@convertReadAlignment_cigar_units Examples.mixin
           (Examples.readGroup []) Examples.read_first
           Examples.alignment_first convert_read_first).
Defined.

(** X4. The mapper returns a record exactly when the raw record has
    qualities, its reference index passes the check and has a name, every
    CIGAR code lies in [-9,8], and the next-reference index is -1 or passes the
    check and has a name; otherwise the mapper raises. *)
Theorem convertReadAlignment_returns_iff `{PysamDatamodelMixin}
    (self : HtslibReadGroup.t) (read : pysam.AlignedSegment) :
  (exists ret : protocol.ReadAlignment.t,
     HtslibReadGroup.convertReadAlignment self read = Returned ret) <->
  (exists quality, pysam.query_qualities read = Some quality) /\
  sanitizeGetRName (pysam.reference_id read) = Returned tt /\
  (exists name,
     pysam.getrname (HtslibReadGroup._samFile self) (pysam.reference_id read)
       = Returned name) /\
  Forall (fun pair => -9 <= pair.1 <= 8) (pysam.cigar read) /\
  (pysam.next_reference_id read = -1 \/
   (sanitizeGetRName (pysam.next_reference_id read) = Returned tt /\
    exists name,
      pysam.getrname (HtslibReadGroup._samFile self)
        (pysam.next_reference_id read) = Returned name)).
Proof.
  split.
  - intros [ret Hret].
    destruct (convertReadAlignment_fields _ _ _ Hret)
      as (Hquality & Hsane & Hname & _).
    destruct (convertReadAlignment_Returned _ _ _ Hret)
      as (_ & Hcigar & Hmate & _).
    split; [eauto|]. split; [exact Hsane|]. split; [eauto|]. split.
    + destruct (cigar_loop_cases (pysam.cigar read) [])
        as [[Hall _] | [_ Hraise]]; [exact Hall | congruence].
    + unfold HtslibReadGroup.convert_nextMatePosition in Hmate.
      destruct (Z.eqb_spec (pysam.next_reference_id read) (-1))
        as [Heq|Hne]; [by left | right]. simpl in Hmate.
      apply bind_Returned in Hmate as ([] & Hsane' & Hmate).
      apply bind_Returned in Hmate as (name & Hname' & _). eauto.
  - intros ([quality Hquality] & Hsane & [name Hname] & Hall & Hnext).
    unfold HtslibReadGroup.convertReadAlignment.
    rewrite Hquality, Hsane, Hname. simpl.
    destruct (cigar_loop_cases (pysam.cigar read) [])
      as [[_ [cigar ->]] | [Hsome _]].
    2:{ exfalso. apply Exists_exists in Hsome as (pair & Hin & Hout).
        pose proof (proj1 (Forall_forall _ _) Hall pair Hin) as Hrange.
        simpl in Hout, Hrange. lia. }
    simpl.
    assert (exists mate,
      HtslibReadGroup.convert_nextMatePosition self read = Returned mate)
      as [mate ->].
    { unfold HtslibReadGroup.convert_nextMatePosition.
      destruct Hnext as [->|[Hsane' [name' Hname']]]; simpl; [eauto|].
      destruct (negb _); [|eauto]. rewrite Hsane', Hname'. simpl. eauto. }
    simpl.
    destruct (HtslibReadGroup.convert_numberReads (pysam.flag read)).
    eauto.
Qed.

(** X5. When the raw record has qualities and its reference index passes
    the check and has a name, a CIGAR code below -9 or above 8 makes the
    mapper raise [IndexError], whatever the rest of the record holds. *)
Theorem convertReadAlignment_bad_code `{PysamDatamodelMixin}
    (self : HtslibReadGroup.t) (read : pysam.AlignedSegment)
    (quality : list Z) (name : string) :
  pysam.query_qualities read = Some quality ->
  sanitizeGetRName (pysam.reference_id read) = Returned tt ->
  pysam.getrname (HtslibReadGroup._samFile self) (pysam.reference_id read)
    = Returned name ->
  Exists (fun pair => pair.1 < -9 \/ 8 < pair.1) (pysam.cigar read) ->
  HtslibReadGroup.convertReadAlignment self read = Raised IndexError.
Proof.
  intros Hquality Hsane Hname Hsome.
  unfold HtslibReadGroup.convertReadAlignment.
  rewrite Hquality, Hsane, Hname. simpl.
  destruct (cigar_loop_cases (pysam.cigar read) [])
    as [[Hall _] | [_ ->]]; [|reflexivity].
  exfalso. apply Exists_exists in Hsome as (pair & Hin & Hout).
  pose proof (proj1 (Forall_forall _ _) Hall pair Hin) as Hrange.
  simpl in Hout, Hrange. lia.
Qed.

Lemma convertReadAlignment_bad_code_witness :
  @HtslibReadGroup.convertReadAlignment Examples.mixin
    (Examples.readGroup []) Examples.read_code9 = Raised IndexError.
Proof.
  apply (@convertReadAlignment_bad_code Examples.mixin
           (Examples.readGroup []) Examples.read_code9 [20] "chr1").
  - reflexivity.
  - reflexivity.
  - reflexivity.
  - apply Exists_cons_hd. simpl. lia.
Defined.

(** X6. A returned record copies the raw record: qualities, sequence,
    mapping quality, start position, template length and query name are taken
    as they are, the reference name is the one looked up for the reference
    index, the read group id is the group's, and the record id is the read
    group id and the fragment name joined by a colon. *)
Theorem convertReadAlignment_copies `{PysamDatamodelMixin}
    (self : HtslibReadGroup.t) (read : pysam.AlignedSegment)
    (ret : protocol.ReadAlignment.t) :
  HtslibReadGroup.convertReadAlignment self read = Returned ret ->
  pysam.query_qualities read
    = Some (protocol.ReadAlignment.alignedQuality ret) /\
  protocol.ReadAlignment.alignedSequence ret = pysam.query_sequence read /\
  protocol.LinearAlignment.mappingQuality
    (protocol.ReadAlignment.alignment ret) = pysam.mapping_quality read /\
  protocol.Position.position
    (protocol.LinearAlignment.position (protocol.ReadAlignment.alignment ret))
    = pysam.reference_start read /\
  pysam.getrname (HtslibReadGroup._samFile self) (pysam.reference_id read)
    = Returned
        (protocol.Position.referenceName
           (protocol.LinearAlignment.position
              (protocol.ReadAlignment.alignment ret))) /\
  protocol.ReadAlignment.fragmentLength ret = pysam.template_length read /\
  protocol.ReadAlignment.fragmentName ret = pysam.query_name read /\
  protocol.ReadAlignment.readGroupId ret = HtslibReadGroup.getId self /\
  protocol.ReadAlignment.id ret
    = (protocol.ReadAlignment.readGroupId ret ++ ":" ++
       protocol.ReadAlignment.fragmentName ret)%string.
Proof.
  intros Hret.
  destruct (convertReadAlignment_fields _ _ _ Hret)
    as (Hquality & _ & Hname & Hseq & Hmapq & Hpos & Hlen & Hfrag & Hgroup &
        Hid & _).
  rewrite Hid, Hgroup, Hfrag. auto 10.
Qed.

Lemma convertReadAlignment_copies_witness :
  protocol.ReadAlignment.id Examples.alignment_first
    = (protocol.ReadAlignment.readGroupId Examples.alignment_first ++ ":" ++
       protocol.ReadAlignment.fragmentName Examples.alignment_first)%string.
Proof.
  apply (@convertReadAlignment_copies Examples.mixin
           (Examples.readGroup []) Examples.read_first
           Examples.alignment_first convert_read_first).
Defined.

(** X7. The info map of a returned record has no entry for a key that no
    tag carries, and for a key some tag carries it holds the one-element list
    with the string of the value of the last tag with that key. *)
Theorem convertReadAlignment_info `{PysamDatamodelMixin}
    (self : HtslibReadGroup.t) (read : pysam.AlignedSegment)
    (ret : protocol.ReadAlignment.t) (key : string) :
  HtslibReadGroup.convertReadAlignment self read = Returned ret ->
  (key ∉ (pysam.tags read).*1 ->
     protocol.ReadAlignment.info ret !! key = None) /\
  (forall before value after,
     pysam.tags read = (before ++ (key, value) :: after)%list ->
     key ∉ after.*1 ->
     protocol.ReadAlignment.info ret !! key = Some [py_str value]).
Proof.
  intros Hret.
  destruct (convertReadAlignment_fields _ _ _ Hret)
    as (_ & _ & _ & _ & _ & _ & _ & _ & _ & _ & Hinfo & _).
  rewrite Hinfo. split.
  - intros Hnot. unfold HtslibReadGroup.info_of_tags.
    rewrite info_fold_other by exact Hnot. apply lookup_empty.
  - intros before value after -> Hnot. by apply info_of_tags_last.
Qed.

Lemma convertReadAlignment_info_witness :
  protocol.ReadAlignment.info Examples.alignment_first !! "NM" = Some ["2"] /\
  protocol.ReadAlignment.info Examples.alignment_first !! "XS" = None.
Proof.
  split.
  - apply (proj2 (@convertReadAlignment_info Examples.mixin
             (Examples.readGroup []) Examples.read_first
             Examples.alignment_first "NM" convert_read_first)
             [] (PyInt 2) [("MD", PyStr "10")]).
    + reflexivity.
    + apply (bool_decide_unpack _). vm_compute. exact I.
  - apply (proj1 (@convertReadAlignment_info Examples.mixin
             (Examples.readGroup []) Examples.read_first
             Examples.alignment_first "XS" convert_read_first)).
    apply (bool_decide_unpack _). vm_compute. exact I.
Defined.

(** ** Further properties of the generator *)

(** X9. When the generator is ended by an exception after the records were
    fetched, it has yielded the conversions of the records before the first
    one that does not convert, in order, and the exception is the one that
    record raises. *)
Theorem getReadAlignments_aborts `{PysamDatamodelMixin}
    (self : HtslibReadGroup.t) (referenceId start end_ : option Z)
    (reads : list pysam.AlignedSegment)
    (out : list protocol.ReadAlignment.t) (e : exn) :
  HtslibReadGroup.fetched self referenceId start end_ = Returned reads ->
  HtslibReadGroup.getReadAlignments self referenceId start end_
    = (out, Some e) ->
  (length out < length reads)%nat /\
  Forall2 (fun read ret =>
             HtslibReadGroup.convertReadAlignment self read = Returned ret)
    (take (length out) reads) out /\
  exists read : pysam.AlignedSegment,
    reads !! length out = Some read /\
    HtslibReadGroup.convertReadAlignment self read = Raised e.
Proof.
  intros Hfetch. unfold HtslibReadGroup.getReadAlignments. rewrite Hfetch.
  intros Hloop.
  apply yield_loop_prefix in Hloop as (n & Hout & read & Hread & Hraise).
  pose proof (lookup_lt_Some _ _ _ Hread) as Hlt.
  assert (length out = n) as ->.
  { rewrite <- (Forall2_length _ _ _ Hout), length_take. lia. }
  split; [exact Hlt|]. split; [exact Hout|]. eauto.
Qed.

Lemma getReadAlignments_aborts_witness :
  (length [Examples.alignment_first]
   < length [Examples.read_first; Examples.read_code9; Examples.read_both])%nat
  /\
  Forall2 (fun read ret =>
             @HtslibReadGroup.convertReadAlignment Examples.mixin
               (Examples.readGroup
                  [Examples.read_first; Examples.read_code9;
                   Examples.read_both]) read = Returned ret)
    (take (length [Examples.alignment_first])
       [Examples.read_first; Examples.read_code9; Examples.read_both])
    [Examples.alignment_first] /\
  exists read : pysam.AlignedSegment,
    [Examples.read_first; Examples.read_code9; Examples.read_both]
      !! length [Examples.alignment_first] = Some read /\
    @HtslibReadGroup.convertReadAlignment Examples.mixin
      (Examples.readGroup
         [Examples.read_first; Examples.read_code9; Examples.read_both])
      read = Raised IndexError.
Proof.
  apply (@getReadAlignments_aborts Examples.mixin
           (Examples.readGroup
              [Examples.read_first; Examples.read_code9; Examples.read_both])
           None None None
           [Examples.read_first; Examples.read_code9; Examples.read_both]
           [Examples.alignment_first] IndexError).
  - reflexivity.
  - vm_compute. reflexivity.
Defined.

(** X10. The generator ends normally exactly when the query is accepted,
    the records are fetched, and every fetched record converts. *)
Theorem getReadAlignments_ends_normally_iff `{PysamDatamodelMixin}
    (self : HtslibReadGroup.t) (referenceId start end_ : option Z) :
  (HtslibReadGroup.getReadAlignments self referenceId start end_).2 = None <->
  exists reads : list pysam.AlignedSegment,
    HtslibReadGroup.fetched self referenceId start end_ = Returned reads /\
    Forall (fun read => exists ret,
              HtslibReadGroup.convertReadAlignment self read = Returned ret)
      reads.
Proof.
  unfold HtslibReadGroup.getReadAlignments. split.
  - destruct (HtslibReadGroup.fetched self referenceId start end_)
      as [reads|e]; [|discriminate].
    destruct (HtslibReadGroup.yield_loop self reads) as [out ending] eqn:Hloop.
    simpl. intros ->. exists reads. split; [reflexivity|].
    apply yield_loop_prefix in Hloop as (n & Hout & ->).
    rewrite firstn_all in Hout. clear -Hout.
    induction Hout; constructor; eauto.
  - intros (reads & -> & Hall).
    by destruct (yield_loop_all self reads Hall) as (out & -> & _).
Qed.



(** ** Simulated read groups *)

Lemma py_str_int_inj (a b : Z) :
  py_str (PyInt a) = py_str (PyInt b) -> a = b.
Proof.
  assert (forall z, NilZero.int_of_string (py_str (PyInt z))
                    = Some (Z.to_int z)) as Hparse.
  { intros z. simpl. apply NilZero.isi; destruct z; simpl; try discriminate.
    - intros [= Hnil]. by apply (DecimalPos.Unsigned.to_uint_nonnil p).
    - intros [= Hnil]. by apply (DecimalPos.Unsigned.to_uint_nonnil p). }
  intros Heq. apply DecimalZ.to_int_inj.
  pose proof (Hparse a) as Ha. rewrite Heq, Hparse in Ha. congruence.
Qed.

Lemma format_simulated_inj (a : string) (i j : Z) :
  SimulatedReadGroup.format_simulated a i
    = SimulatedReadGroup.format_simulated a j -> i = j.
Proof.
  unfold SimulatedReadGroup.format_simulated. intros Heq.
  apply (String.app_inj a) in Heq. apply (String.app_inj ":simulated") in Heq.
  by apply py_str_int_inj.
Qed.

Lemma py_range_lookup (n : Z) (i : nat) (x : Z) :
  py_range n !! i = Some x <-> (x = Z.of_nat i /\ (i < Z.to_nat n)%nat).
Proof.
  unfold py_range. rewrite list_lookup_fmap, fmap_Some. split.
  - intros (k & Hk & ->). apply lookup_seq in Hk as [-> Hlt]. by split.
  - intros [-> Hlt]. exists i. split; [|reflexivity].
    apply lookup_seq. by split.
Qed.

(** X12. A simulated read group yields as many alignments as its count
    says, none when the count is zero or negative, and ends normally; the
    alignment at position [i] has the id made of the group's id and [i], the
    same fragment name, and the group's id as its read group. *)
Theorem simulated_getReadAlignments_yields
    (self : SimulatedReadGroup.t) (referenceId start end_ : option Z) :
  (SimulatedReadGroup.getReadAlignments self referenceId start end_).2
    = None /\
  length (SimulatedReadGroup.getReadAlignments self referenceId start end_).1
    = Z.to_nat (SimulatedReadGroup._numAlignments self) /\
  forall (i : nat) (a : protocol_readgroups.SimulatedReadAlignment.t),
    (SimulatedReadGroup.getReadAlignments self referenceId start end_).1 !! i
      = Some a ->
    protocol_readgroups.SimulatedReadAlignment.id a
      = (SimulatedReadGroup.getId self ++ ":simulated" ++
         py_str (PyInt (Z.of_nat i)))%string /\
    protocol_readgroups.SimulatedReadAlignment.fragmentName a
      = protocol_readgroups.SimulatedReadAlignment.id a /\
    protocol_readgroups.SimulatedReadAlignment.readGroupId a
      = SimulatedReadGroup.getId self.
Proof.
  unfold SimulatedReadGroup.getReadAlignments. simpl.
  split; [reflexivity|]. split.
  - unfold py_range. by rewrite !length_fmap, length_seq.
  - intros i a Hlook. rewrite list_lookup_fmap, fmap_Some in Hlook.
    destruct Hlook as (x & Hx & ->). apply py_range_lookup in Hx as [-> _].
    by repeat split.
Qed.

Lemma simulated_getReadAlignments_yields_witness :
  length (SimulatedReadGroup.getReadAlignments
            (SimulatedReadGroup.__init__ 0 "g" 2) None None None).1
    = 2%nat /\
  forall a : protocol_readgroups.SimulatedReadAlignment.t,
    (SimulatedReadGroup.getReadAlignments
       (SimulatedReadGroup.__init__ 0 "g" 2) None None None).1 !! 1%nat
      = Some a ->
    protocol_readgroups.SimulatedReadAlignment.id a = "g:simulated1".
Proof.
  split.
  - apply (proj1 (proj2 (simulated_getReadAlignments_yields
      (SimulatedReadGroup.__init__ 0 "g" 2) None None None))).
  - intros a Hlook.
    apply (proj1 (proj2 (proj2 (simulated_getReadAlignments_yields
      (SimulatedReadGroup.__init__ 0 "g" 2) None None None)) 1%nat a Hlook)).
Defined.

(** X13. The alignments a simulated read group yields have pairwise
    different ids. *)
Theorem simulated_getReadAlignments_distinct_ids
    (self : SimulatedReadGroup.t) (referenceId start end_ : option Z) :
  NoDup
    (protocol_readgroups.SimulatedReadAlignment.id <$>
       (SimulatedReadGroup.getReadAlignments self referenceId start end_).1).
Proof.
  unfold SimulatedReadGroup.getReadAlignments. simpl.
  rewrite <- list_fmap_compose.
  apply NoDup_fmap_2_strong.
  - intros i j _ _ Heq. simpl in Heq. by apply format_simulated_inj in Heq.
  - unfold py_range. apply NoDup_fmap_2; [|apply NoDup_seq].
    intros x y Hxy. lia.
Qed.

(** X14. A simulated read group set holds exactly one read group, whose id
    is the set's id followed by ":one" and which has the given number of
    alignments; its protocol element carries the set's id and one read group
    whose name is its id and whose creation and update times are the time of
    construction. *)
Theorem SimulatedReadGroupSet_one_group
    (now : Z) (id_ : string) (numAlignments : Z) :
  (exists g : SimulatedReadGroup.t,
     AbstractReadGroupSet.getReadGroups
       (SimulatedReadGroupSet.__init__ now id_ numAlignments) = [g] /\
     SimulatedReadGroup.getId g = (id_ ++ ":one")%string /\
     SimulatedReadGroup._numAlignments g = numAlignments) /\
  protocol_readgroups.ReadGroupSet.id
    (AbstractReadGroupSet.toProtocolElement
       (SimulatedReadGroupSet.__init__ now id_ numAlignments)) = id_ /\
  exists pg : protocol_readgroups.ReadGroup.t,
    protocol_readgroups.ReadGroupSet.readGroups
      (AbstractReadGroupSet.toProtocolElement
         (SimulatedReadGroupSet.__init__ now id_ numAlignments)) = [pg] /\
    protocol_readgroups.ReadGroup.id pg = (id_ ++ ":one")%string /\
    protocol_readgroups.ReadGroup.name pg
      = protocol_readgroups.ReadGroup.id pg /\
    protocol_readgroups.ReadGroup.created pg = now /\
    protocol_readgroups.ReadGroup.updated pg = now.
Proof.
  split; [|split].
  - eexists. split; [reflexivity|]. by split.
  - reflexivity.
  - eexists. split; [reflexivity|]. by repeat split.
Qed.

(** ** Further properties of the frontend *)




(** X17. [configure] never calls [from_pyfile], whatever its arguments, the
    environment and the behaviour of the application: the calls it adds are
    [from_object], [from_envvar] and [CORS] only. *)
Theorem configure_never_from_pyfile `{flask_app.App}
    (environ : string -> option string) (config : string)
    (config_file : option string) (trace : list flask_app.call) :
  exists calls : list flask_app.call,
    (frontend_configure.configure environ config config_file trace).2
      = (trace ++ calls)%list /\
    Forall (fun c => forall filename : string,
              c <> flask_app.from_pyfile filename) calls.
Proof.
  unfold frontend_configure.configure, mbind, flask_app.action_bind,
    mret, flask_app.action_ret, flask_app.do_call, flask_app.raise.
  repeat case_match; simplify_eq/=;
    repeat match goal with
           | |- context [((?a ++ ?b) ++ ?c)%list] => rewrite <- (app_assoc a b c)
           end;
    (eexists; split;
     [first [reflexivity | symmetry; apply app_nil_r]
     | repeat constructor; discriminate]).
Qed.

(** X18. [configure] called with a configuration file never returns and
    never installs CORS: it raises, and when the calls before succeed the
    exception is the [NameError] of the undefined name [args]. *)
Theorem configure_with_config_file_raises `{flask_app.App}
    (environ : string -> option string) (config filename : string)
    (trace : list flask_app.call) :
  (exists e : exn,
     (frontend_configure.configure environ config (Some filename) trace).1
       = Raised e) /\
  (exists calls : list flask_app.call,
     (frontend_configure.configure environ config (Some filename) trace).2
       = (trace ++ calls)%list /\
     Forall (fun c => forall allow_headers : string,
               c <> flask_app.CORS allow_headers) calls) /\
  (flask_app.perform trace
     (flask_app.from_object ("ga4gh.serverconfig:" ++ config)%string) = None ->
   (environ "GA4GH_CONFIGURATION" = None \/
    flask_app.perform
      (trace ++
       [flask_app.from_object ("ga4gh.serverconfig:" ++ config)%string])%list
      (flask_app.from_envvar "GA4GH_CONFIGURATION") = None) ->
   (frontend_configure.configure environ config (Some filename) trace).1
     = Raised (Exception "NameError")).
Proof.
  unfold frontend_configure.configure, mbind, flask_app.action_bind,
    mret, flask_app.action_ret, flask_app.do_call, flask_app.raise.
  split; [|split].
  - repeat case_match; simplify_eq/=; eauto.
  - repeat case_match; simplify_eq/=;
      repeat match goal with
             | |- context [((?a ++ ?b) ++ ?c)%list] =>
                 rewrite <- (app_assoc a b c)
             end;
      (eexists; split;
       [first [reflexivity | symmetry; apply app_nil_r]
       | repeat constructor; discriminate]).
  - intros Hobject Henv. rewrite Hobject.
    destruct (environ "GA4GH_CONFIGURATION"); [|reflexivity].
    destruct Henv as [?| ->]; [discriminate | reflexivity].
Qed.

Lemma configure_with_config_file_raises_witness :
  (@frontend_configure.configure MoreExamples.willing_app
     (fun _ => None) "DefaultConfig" (Some "my.cfg") []).1
  = Raised (Exception "NameError").
Proof.
  apply (proj2 (proj2 (@configure_with_config_file_raises
           MoreExamples.willing_app (fun _ => None) "DefaultConfig"
           "my.cfg" []))).
  - reflexivity.
  - left. reflexivity.
Defined.
